(** * GuiaTrux: the Streamlit front end [app.py]

    A shallow embedding of [TransportApp] and of the route tab of [main],
    with the Python values they handle, and the properties of the map
    layers, of the rendering helpers, of the report download and of the
    session state that hold of the code. *)

From Stdlib Require Import ZArith NArith List String Ascii Strings.Byte Bool Lia.
From Stdlib Require Import Floats.SpecFloat DecimalString.
Import ListNotations.

Set Implicit Arguments.
Set Warnings "-register-all".
Local Open Scope Z_scope.

(** ** Python text

    A Python [str] is a sequence of code points.  Literals of the source are
    written as Rocq strings and decoded from UTF-8 by [lit]. *)

Definition str : Type := list N.

Fixpoint decode_utf8 (need : nat) (acc : N) (bs : list N) : str :=
  match bs with
  | [] => []
  | b :: bs' =>
      match need with
      | O =>
          if (b <? 128)%N then b :: decode_utf8 0 0 bs'
          else if (b <? 224)%N then decode_utf8 1 (b - 192) bs'
          else if (b <? 240)%N then decode_utf8 2 (b - 224) bs'
          else decode_utf8 3 (b - 240) bs'
      | S O => (acc * 64 + (b - 128))%N :: decode_utf8 0 0 bs'
      | S n => decode_utf8 n (acc * 64 + (b - 128))%N bs'
      end
  end.

Definition lit (s : string) : str :=
  decode_utf8 0 0 (map N_of_ascii (list_ascii_of_string s)).

Definition str_eqb (a b : str) : bool :=
  if list_eq_dec N.eq_dec a b then true else false.

(** [str.isspace] on one code point: what [str.strip()] removes. *)
Definition is_space (c : N) : bool :=
  ((9 <=? c) && (c <=? 13) || (28 <=? c) && (c <=? 32)
   || (c =? 133) || (c =? 160) || (c =? 5760)
   || (8192 <=? c) && (c <=? 8202)
   || (c =? 8232) || (c =? 8233) || (c =? 8239) || (c =? 8287)
   || (c =? 12288))%N.

Fixpoint lstrip (s : str) : str :=
  match s with
  | c :: s' => if is_space c then lstrip s' else s
  | [] => []
  end.

Definition rstrip (s : str) : str := rev (lstrip (rev s)).

(** [s.strip()] *)
Definition strip (s : str) : str := rstrip (lstrip s).

(** [len(s)] *)
Definition len (s : str) : Z := Z.of_nat (List.length s).

Fixpoint startswith (p s : str) : bool :=
  match p, s with
  | [], _ => true
  | a :: p', b :: s' => (a =? b)%N && startswith p' s'
  | _ :: _, [] => false
  end.

(** [p in s] for two strings: [p] occurs in [s]. *)
Fixpoint substring (p s : str) : bool :=
  startswith p s ||
  match s with
  | [] => false
  | _ :: s' => substring p s'
  end.

(** ** Python values

    What [response.json()] returns, and the [bytes] that [base64.b64decode]
    makes of a payload.  A dict is its list of items in insertion order; a
    key is looked up from the left. *)

Inductive value : Type :=
| VNone
| VBool (b : bool)
| VInt (z : Z)
| VFloat (f : spec_float)
| VStr (s : str)
| VBytes (b : list byte)
| VList (l : list value)
| VDict (d : list (str * value)).

(** binary64, the format of a Python [float] *)
Definition prec : Z := 53.
Definition emax : Z := 1024.

Definition float_of_Z (z : Z) : spec_float := binary_normalize prec emax z 0 false.

(** [bool(v)] *)
Definition truthy (v : value) : bool :=
  match v with
  | VNone => false
  | VBool b => b
  | VInt z => negb (z =? 0)
  | VFloat (S754_zero _) => false
  | VFloat _ => true
  | VStr s => negb (str_eqb s [])
  | VBytes b => match b with [] => false | _ => true end
  | VList l => match l with [] => false | _ => true end
  | VDict d => match d with [] => false | _ => true end
  end.

Fixpoint lookup (k : str) (d : list (str * value)) : option value :=
  match d with
  | [] => None
  | (k', v) :: d' => if str_eqb k k' then Some v else lookup k d'
  end.

(** ** Exceptions and results *)

Inductive exn : Type :=
| KeyError (k : str)
| TypeError
| AttributeError
| ValueError
| OverflowError
| RequestException        (* raised by [requests] when the call itself fails *)
| JSONDecodeError         (* raised by [response.json()] *)
| BinasciiError.          (* raised by [base64.b64decode] *)

(** what a Python operation gives *)
Inductive outcome (A : Type) : Type :=
| Ret (a : A)
| Raise (e : exn).
Arguments Ret {A} a.
Arguments Raise {A} e.

(** how a piece of the script ends: it returns, an [Exception] leaves it, or
    [st.rerun()] stops the run ([RerunException] is no [Exception], so no
    [except Exception] catches it) *)
Inductive result (A : Type) : Type :=
| Returned (a : A)
| Raised (e : exn)
| Rerun.
Arguments Returned {A} a.
Arguments Raised {A} e.
Arguments Rerun {A}.

(** [v[k]] for a string key *)
Definition getitem (v : value) (k : str) : outcome value :=
  match v with
  | VDict d =>
      match lookup k d with
      | Some x => Ret x
      | None => Raise (KeyError k)
      end
  | _ => Raise TypeError
  end.

(** [v.get(k, default)] *)
Definition get (v : value) (k : str) (default : value) : outcome value :=
  match v with
  | VDict d =>
      match lookup k d with
      | Some x => Ret x
      | None => Ret default
      end
  | _ => Raise AttributeError
  end.

(** [k in v] for a string [k] *)
Definition contains (k : str) (v : value) : outcome bool :=
  match v with
  | VDict d => Ret (match lookup k d with Some _ => true | None => false end)
  | VList l =>
      Ret (existsb (fun x => match x with VStr s => str_eqb k s | _ => false end) l)
  | VStr s => Ret (substring k s)
  | _ => Raise TypeError
  end.

(** the items a [for] loop (or [enumerate]) draws from [v] *)
Definition iter (v : value) : outcome (list value) :=
  match v with
  | VList l => Ret l
  | VDict d => Ret (map (fun kv => VStr (fst kv)) d)
  | VStr s => Ret (map (fun c => VStr [c]) s)
  | VBytes b => Ret (map (fun c => VInt (Z.of_N (Byte.to_N c))) b)
  | _ => Raise TypeError
  end.

(** [v * n] for an int [n] *)
Definition mul_int (v : value) (n : Z) : outcome value :=
  match v with
  | VBool b => Ret (VInt ((if b then 1 else 0) * n))
  | VInt z => Ret (VInt (z * n))
  | VFloat f => Ret (VFloat (SFmul prec emax f (float_of_Z n)))
  | VStr s => Ret (VStr (List.concat (repeat s (Z.to_nat n))))
  | VBytes b => Ret (VBytes (List.concat (repeat b (Z.to_nat n))))
  | VList l => Ret (VList (List.concat (repeat l (Z.to_nat n))))
  | VNone | VDict _ => Raise TypeError
  end.

(** [float(z)] for an int: [OverflowError] when [z] rounds out of range *)
Definition int_to_float (z : Z) : outcome spec_float :=
  match float_of_Z z with
  | S754_infinity _ => Raise OverflowError
  | f => Ret f
  end.

(** ** The interpreter's own functions

    [repr], number formatting, the text of an exception and the base64
    decoder belong to CPython and its library; the application only calls
    them.  They are taken as given. *)

Record Runtime : Type := {
  repr : value -> str;                       (* [repr(v)] *)
  format_fixed : nat -> spec_float -> str;   (* [format(x, '.<n>f')] for a float *)
  exn_str : exn -> str;                      (* [str(e)] *)
  b64decode : value -> option (list byte)    (* [base64.b64decode(v)]; [None]: it raises *)
}.

(** ** Streamlit, pydeck and requests *)

(** [pdk.Layer(type, data=..., **kwargs)] *)
Record Layer : Type := mkLayer {
  layer_type : str;
  data : value;
  kwargs : list (str * value)
}.

(** [pdk.ViewState(latitude=..., longitude=..., zoom=..., pitch=...)] *)
Record ViewState : Type := mkViewState {
  latitude : value;
  longitude : value;
  zoom : Z;
  pitch : Z
}.

(** [pdk.Deck(layers=..., initial_view_state=..., tooltip=...)] *)
Record Deck : Type := mkDeck {
  layers : list Layer;
  initial_view_state : ViewState;
  tooltip : value
}.

(** What a call of [st.*] puts on the page.  Containers ([st.columns],
    [st.expander], [st.container], [st.tabs]) only place elements and are
    left out. *)
Inductive element : Type :=
| st_info (body : str)
| st_success (body : str)
| st_error (body : str)
| st_markdown (body : str)
| st_write (body : str)
| st_metric (label : str) (val : str)
| st_spinner (text : str)
| st_map (rows : value) (map_zoom : Z)
| st_text_input (label : str) (placeholder : str)
| st_button (label : str) (key : option str)
| st_download_button (label : str) (payload : value) (file_name : value) (mime : str)
| st_pydeck_chart (deck : Deck).

Inductive request : Type :=
| GET (url : str) (params : list (str * value))
| POST (url : str) (json : value).

(** the answer of the service: the call itself fails, or a response comes
    back with a status and a body that [response.json()] parses or not *)
Inductive http_result : Type :=
| NoResponse
| Response (status_code : Z) (body : option value).

Inductive event : Type :=
| Shown (e : element)
| Requested (r : request).

(** [st.session_state], with the three keys the module sets before [main] *)
Record SessionState : Type := mkSession {
  show_results : value;
  route_data : value;
  selected_destination : value
}.

(** the session at its start (the module's last lines) *)
Definition initial_session : SessionState :=
  mkSession (VBool false) VNone VNone.

(** One run of the script: what the user did to cause it, and what the
    outside answers during it. *)
Record Interaction : Type := mkInteraction {
  clicked : option (str * option str);   (* label and key of the button pressed *)
  destination_input : str;               (* content of the text box *)
  now_isoformat : str;                   (* [datetime.now().isoformat()] *)
  http : request -> http_result
}.

Record script : Type := mkScript {
  session_state : SessionState;
  trace : list event
}.

(** ** The script monad: session state, page trace and exceptions *)

Definition St (A : Type) : Type := script -> result A * script.

Definition ret {A} (a : A) : St A := fun s => (Returned a, s).

Definition raise {A} (e : exn) : St A := fun s => (Raised e, s).

Definition bind {A B} (m : St A) (k : A -> St B) : St B :=
  fun s =>
    match m s with
    | (Returned a, s') => k a s'
    | (Raised e, s') => (Raised e, s')
    | (Rerun, s') => (Rerun, s')
    end.

Declare Scope st_scope.
Delimit Scope st_scope with st.
Notation "x <- m ;; k" := (bind m (fun x => k))
  (at level 61, m at next level, right associativity) : st_scope.
Notation "m ;; k" := (bind m (fun _ => k))
  (at level 61, right associativity) : st_scope.
Local Open Scope st_scope.

(** a Python operation inside the script *)
Definition lift {A} (r : outcome A) : St A :=
  match r with
  | Ret a => ret a
  | Raise e => raise e
  end.

(** [try: m except Exception as e: handler e] *)
Definition try_except {A} (m : St A) (handler : exn -> St A) : St A :=
  fun s =>
    match m s with
    | (Raised e, s') => handler e s'
    | r => r
    end.

(** [response.json()] *)
Definition json_of (body : option value) : St value :=
  match body with
  | Some v => ret v
  | None => raise JSONDecodeError
  end.

Definition emit (e : event) : St unit :=
  fun s => (Returned tt, mkScript (session_state s) (trace s ++ [e])).

Definition put (e : element) : St unit := emit (Shown e).

Definition get_session : St SessionState := fun s => (Returned (session_state s), s).

Definition set_session (ss : SessionState) : St unit :=
  fun s => (Returned tt, mkScript ss (trace s)).

(** [st.rerun()] *)
Definition st_rerun {A} : St A := fun s => (Rerun, s).

Definition widget_eqb (a b : str * option str) : bool :=
  str_eqb (fst a) (fst b) &&
  match snd a, snd b with
  | Some x, Some y => str_eqb x y
  | None, None => true
  | _, _ => false
  end.

(** [st.button(label, key=key)]: true in the run its press causes *)
Definition button (i : Interaction) (label : str) (key : option str) : St bool :=
  put (st_button label key) ;;
  ret (match clicked i with
       | Some w => widget_eqb w (label, key)
       | None => false
       end).

(** [requests.get] / [requests.post] *)
Definition send (i : Interaction) (r : request) : St (Z * option value) :=
  emit (Requested r) ;;
  match http i r with
  | NoResponse => raise RequestException
  | Response c b => ret (c, b)
  end.

(** ** The application *)

Section App.

Variable py : Runtime.

(** [str(v)], what an f-string puts for [{v}] *)
Definition str_of (v : value) : str :=
  match v with
  | VStr s => s
  | _ => repr py v
  end.

(** [format(v, '.<digits>f')], what an f-string puts for [{v:.<digits>f}] *)
Definition format_f (digits : nat) (v : value) : outcome str :=
  match v with
  | VBool b => Ret (format_fixed py digits (float_of_Z (if b then 1 else 0)))
  | VInt z =>
      match int_to_float z with
      | Ret f => Ret (format_fixed py digits f)
      | Raise e => Raise e
      end
  | VFloat f => Ret (format_fixed py digits f)
  | VStr _ => Raise ValueError
  | _ => Raise TypeError
  end.

(** [v >= n] for an int [n] that a float holds exactly *)
Definition ge_int (v : value) (n : Z) : outcome bool :=
  match v with
  | VBool b => Ret (n <=? (if b then 1 else 0))
  | VInt z => Ret (n <=? z)
  | VFloat f => Ret (SFleb (float_of_Z n) f)
  | _ => Raise TypeError
  end.

Record TransportApp : Type := mkApp {
  api_url : str;
  default_location : value
}.

(** [TransportApp.__init__]; [secret] is the API_URL entry of [st.secrets].
    The two floats are the binary64 values of -8.114722 and -79.038611. *)
Definition TransportApp_init (secret : option str) : TransportApp :=
  mkApp
    (match secret with
     | Some u => u
     | None => lit "http://localhost:5000/api"
     end)
    (VDict [ (lit "latitude", VFloat (S754_finite true 4568182371926896 (-49)));
             (lit "longitude", VFloat (S754_finite true 5561847797616900 (-46))) ]).

Variable self : TransportApp.
Variable i : Interaction.

Definition get_current_location : St value :=
  try_except
    (put (st_info (lit "📍 Ubicación actual: Centro de Trujillo (8°06′53″S 79°02′19″O)")) ;;
     b <- button i (lit "🔍 Usar mi ubicación real") None ;;
     if b : bool then
       put (st_success (lit "Funcionalidad disponible en producción con HTTPS")) ;;
       ret (default_location self)
     else ret (default_location self))
    (fun e =>
       put (st_error (lit "Error al obtener ubicación: " ++ exn_str py e)) ;;
       ret (default_location self)).

Definition search_destinations (query : option str) : St value :=
  try_except
    (match query with
     | None => ret (VList [])
     | Some q =>
         if negb (truthy (VStr q)) || (len (strip q) <? 3) then ret (VList [])
         else
           response <- send i (GET (api_url self ++ lit "/search") [(lit "q", VStr q)]) ;;
           if fst response =? 200 then json_of (snd response)
           else ret (VList [])
     end)
    (fun e =>
       put (st_error (lit "Error en búsqueda: " ++ exn_str py e)) ;;
       ret (VList [])).

Definition calculate_route (origin_lat origin_lng destination_name
                            destination_lat destination_lng : value) : St value :=
  try_except
    (let payload :=
       VDict [ (lit "origin_lat", origin_lat);
               (lit "origin_lng", origin_lng);
               (lit "destination_name", destination_name);
               (lit "destination_lat", destination_lat);
               (lit "destination_lng", destination_lng);
               (lit "timestamp", VStr (now_isoformat i));
               (lit "user_agent", VStr (lit "streamlit-app")) ] in
     put (st_spinner (lit "🔄 Calculando mejor ruta de transporte...")) ;;
     response <- send i (POST (api_url self ++ lit "/calculate-route") payload) ;;
     if fst response =? 200 then json_of (snd response)
     else
       put (st_error (lit "Error del servidor: " ++ str_of (VInt (fst response)))) ;;
       ret VNone)
    (fun e =>
       put (st_error (lit "Error al calcular ruta: " ++ exn_str py e)) ;;
       ret VNone).

(** *** [display_route_map]: the records it builds *)

Definition rgba (r g b a : Z) : value := VList [VInt r; VInt g; VInt b; VInt a].

Definition point (name : str) (lng lat : value) (color : value) : value :=
  VDict [ (lit "name", VStr name);
          (lit "coordinates", VList [lng; lat]);
          (lit "color", color) ].

Definition origin_point (origin_lng origin_lat : value) : value :=
  point (lit "Tu ubicación") origin_lng origin_lat (rgba 255 0 0 160).

Definition boarding_point (stop_name boarding_lng boarding_lat : value) : value :=
  point (lit "Parada: " ++ str_of stop_name) boarding_lng boarding_lat (rgba 0 0 255 160).

Definition destination_point (destination_name destination_lng destination_lat : value) : value :=
  point (lit "Destino: " ++ str_of destination_name) destination_lng destination_lat
        (rgba 0 255 0 160).

Definition points_layer (points_data : list value) : Layer :=
  mkLayer (lit "ScatterplotLayer") (VList points_data)
    [ (lit "get_position", VStr (lit "coordinates"));
      (lit "get_color", VStr (lit "color"));
      (lit "get_radius", VInt 200);
      (lit "pickable", VBool true) ].

Definition path_layer (path : value) (color : value) (name : str) (width : Z) : Layer :=
  mkLayer (lit "PathLayer")
    (VList [ VDict [ (lit "path", path); (lit "color", color); (lit "name", VStr name) ] ])
    [ (lit "get_path", VStr (lit "path"));
      (lit "get_color", VStr (lit "color"));
      (lit "get_width", VInt width);
      (lit "pickable", VBool true) ].

Definition walking_layer (path : value) : Layer :=
  path_layer path (rgba 255 165 0 160) (lit "Ruta a pie hacia la parada") 8.

Definition bus_layer (path : value) : Layer :=
  path_layer path (rgba 75 0 130 160) (lit "Ruta del transporte") 6.

Definition map_tooltip : value :=
  VDict [ (lit "html", VStr (lit "<b>{name}</b>"));
          (lit "style", VDict [ (lit "backgroundColor", VStr (lit "steelblue"));
                                (lit "color", VStr (lit "white")) ]) ].

(** [if not route_data or 'route' not in route_data: return], the guard of
    both rendering methods: [true] when the method goes on *)
Definition has_route (route_data : value) : St bool :=
  if negb (truthy route_data) then ret false
  else lift (contains (lit "route") route_data).

Definition display_route_map (route_data : value) : St unit :=
  go <- has_route route_data ;;
  if negb go then ret tt else
  route <- lift (getitem route_data (lit "route")) ;;
  (* origin *)
  origin_lng <- lift (getitem route (lit "origin_lng")) ;;
  origin_lat <- lift (getitem route (lit "origin_lat")) ;;
  let points_data := [origin_point origin_lng origin_lat] in
  (* boarding stop *)
  stop_name <- lift (get route (lit "boarding_stop_name") (VStr (lit "Parada recomendada"))) ;;
  boarding_lng <- lift (getitem route (lit "boarding_lng")) ;;
  boarding_lat <- lift (getitem route (lit "boarding_lat")) ;;
  let points_data := points_data ++ [boarding_point stop_name boarding_lng boarding_lat] in
  (* destination, if available *)
  dlat <- lift (get route (lit "destination_lat") VNone) ;;
  available <- (if truthy dlat
                then dlng <- lift (get route (lit "destination_lng") VNone) ;;
                     ret (truthy dlng)
                else ret false) ;;
  points_data <- (if available : bool
                  then destination_name <- lift (getitem route (lit "destination_name")) ;;
                       destination_lng <- lift (getitem route (lit "destination_lng")) ;;
                       destination_lat <- lift (getitem route (lit "destination_lat")) ;;
                       ret (points_data ++
                            [destination_point destination_name destination_lng destination_lat])
                  else ret points_data) ;;
  (* walking path, if any *)
  walking <- lift (get route (lit "walking_route_coordinates") VNone) ;;
  line_layers <- (if truthy walking
                  then path <- lift (getitem route (lit "walking_route_coordinates")) ;;
                       ret [walking_layer path]
                  else ret []) ;;
  (* bus path, if any *)
  bus <- lift (get route (lit "bus_route_coordinates") VNone) ;;
  line_layers <- (if truthy bus
                  then path <- lift (getitem route (lit "bus_route_coordinates")) ;;
                       ret (line_layers ++ [bus_layer path])
                  else ret line_layers) ;;
  let layers := line_layers ++ [points_layer points_data] in
  view_lat <- lift (getitem route (lit "origin_lat")) ;;
  view_lng <- lift (getitem route (lit "origin_lng")) ;;
  let view_state := mkViewState view_lat view_lng 14 0 in
  put (st_pydeck_chart (mkDeck layers view_state map_tooltip)).

(** *** [display_transport_companies] *)

Definition display_company (company : value) : St unit :=
  name <- lift (get company (lit "name") (VStr (lit "Empresa"))) ;;
  put (st_markdown (lit "**" ++ str_of name ++ lit "**")) ;;
  route_name <- lift (get company (lit "route_name") (VStr (lit "N/A"))) ;;
  put (st_markdown (lit "**Ruta:** " ++ str_of route_name)) ;;
  phone <- lift (get company (lit "phone") VNone) ;;
  (if truthy phone
   then phone <- lift (get company (lit "phone") VNone) ;;
        put (st_markdown (lit "**Teléfono:** " ++ str_of phone))
   else ret tt) ;;
  email <- lift (get company (lit "email") VNone) ;;
  (if truthy email
   then email <- lift (get company (lit "email") VNone) ;;
        put (st_markdown (lit "**Email:** " ++ str_of email))
   else ret tt) ;;
  fare <- lift (get company (lit "fare") (VStr (lit "0.00"))) ;;
  put (st_markdown (lit "**Tarifa:** S/ " ++ str_of fare)) ;;
  frequency <- lift (get company (lit "frequency_min") (VStr (lit "?"))) ;;
  put (st_markdown (lit "**Frecuencia:** " ++ str_of frequency ++ lit " min")) ;;
  duration <- lift (get company (lit "estimated_duration_min") (VStr (lit "?"))) ;;
  put (st_markdown (lit "**Tiempo estimado:** " ++ str_of duration ++ lit " min")) ;;
  score <- lift (get company (lit "reliability_score") (VInt 0)) ;;
  reliability <- lift (mul_int score 100) ;;
  high <- lift (ge_int reliability 80) ;;
  color <- (if high : bool then ret (lit "green")
            else mid <- lift (ge_int reliability 60) ;;
                 ret (if mid : bool then lit "orange" else lit "red")) ;;
  percent <- lift (format_f 0 reliability) ;;
  put (st_markdown (lit "<span style='color: " ++ color ++
                    lit "; font-weight: bold;'>Confianza: " ++ percent ++ lit "%</span>")) ;;
  put (st_markdown (lit "---")).

Fixpoint for_each {A} (body : A -> St unit) (items : list A) : St unit :=
  match items with
  | [] => ret tt
  | x :: rest => body x ;; for_each body rest
  end.

Definition display_transport_companies (companies : value) : St unit :=
  if negb (truthy companies)
  then put (st_info (lit "No se encontraron empresas de transporte para esta ruta"))
  else
    put (st_markdown (lit "### 🚍 Empresas de Transporte Recomendadas")) ;;
    items <- lift (iter companies) ;;
    for_each display_company items.

(** *** [display_route_instructions] *)

(** [for i, instruction in enumerate(items, start): st.write(f"{i}. {instruction}")] *)
Fixpoint write_instructions (start : Z) (items : list value) : St unit :=
  match items with
  | [] => ret tt
  | instruction :: rest =>
      put (st_write (str_of (VInt start) ++ lit ". " ++ str_of instruction)) ;;
      write_instructions (start + 1) rest
  end.

Definition display_route_instructions (route_data : value) : St unit :=
  go <- has_route route_data ;;
  if negb go then ret tt else
  route <- lift (getitem route_data (lit "route")) ;;
  put (st_markdown (lit "### 📋 Instrucciones de Ruta")) ;;
  (* the four metrics *)
  distance <- lift (get route (lit "walking_distance_km") (VInt 0)) ;;
  km <- lift (format_f 2 distance) ;;
  put (st_metric (lit "Distancia a caminar") (km ++ lit " km")) ;;
  walking_time <- lift (get route (lit "walking_time_min") (VInt 0)) ;;
  put (st_metric (lit "Tiempo caminando") (str_of walking_time ++ lit " min")) ;;
  total_time <- lift (get route (lit "estimated_time_min") (VInt 0)) ;;
  put (st_metric (lit "Tiempo total estimado") (str_of total_time ++ lit " min")) ;;
  fare <- lift (get route (lit "estimated_fare") (VStr (lit "0.00"))) ;;
  put (st_metric (lit "Costo aproximado") (lit "S/ " ++ str_of fare)) ;;
  (* step by step *)
  put (st_markdown (lit "#### 🚶‍♂️ Cómo llegar a la parada:")) ;;
  instructions <- lift (get route (lit "walking_instructions") VNone) ;;
  (if truthy instructions
   then steps <- lift (getitem route (lit "walking_instructions")) ;;
        items <- lift (iter steps) ;;
        write_instructions 1 items
   else
     stop_name <- lift (get route (lit "boarding_stop_name")
                                  (VStr (lit "Parada recomendada"))) ;;
     put (st_write (lit "1. Dirígete hacia la parada: **" ++ str_of stop_name ++ lit "**")) ;;
     distance <- lift (get route (lit "walking_distance_km") (VInt 0)) ;;
     km <- lift (format_f 2 distance) ;;
     put (st_write (lit "2. Distancia a caminar: **" ++ km ++ lit " km**")) ;;
     walking_time <- lift (get route (lit "walking_time_min") (VInt 0)) ;;
     put (st_write (lit "3. Tiempo estimado caminando: **" ++ str_of walking_time ++
                    lit " minutos**"))) ;;
  (* confidence *)
  score <- lift (get route (lit "confidence_score") (VInt 0)) ;;
  confidence <- lift (mul_int score 100) ;;
  percent <- lift (format_f 1 confidence) ;;
  put (st_markdown (lit "#### 📊 Confianza de la recomendación: **" ++ percent ++ lit "%**")).

(** *** [download_report] *)

Definition download_report (route_result_id : value) : St (value * value) :=
  try_except
    (response <- send i (POST (api_url self ++ lit "/generate-report")
                              (VDict [(lit "route_result_id", route_result_id)])) ;;
     if fst response =? 200 then
       result <- json_of (snd response) ;;
       success <- lift (get result (lit "success") VNone) ;;
       if truthy success then
         payload <- lift (getitem result (lit "pdf_base64")) ;;
         pdf_bytes <- (match b64decode py payload with
                       | Some b => ret b
                       | None => raise BinasciiError
                       end) ;;
         filename <- lift (getitem result (lit "filename")) ;;
         ret (VBytes pdf_bytes, filename)
       else ret (VNone, VNone)
     else ret (VNone, VNone))
    (fun e =>
       put (st_error (lit "Error descargando reporte: " ++ exn_str py e)) ;;
       ret (VNone, VNone)).

(** *** [main]: the route tab

    The body of [with tab1:].  The sidebar before it catches whatever it
    raises and the three tabs after it never write one of the three keys of
    the session modelled here. *)

Definition set_show_results (v : value) : St unit :=
  ss <- get_session ;;
  set_session (mkSession v (route_data ss) (selected_destination ss)).

Definition set_route_data (v : value) : St unit :=
  ss <- get_session ;;
  set_session (mkSession (show_results ss) v (selected_destination ss)).

Definition set_selected_destination (v : value) : St unit :=
  ss <- get_session ;;
  set_session (mkSession (show_results ss) (route_data ss) v).

(** one search result, with its button *)
Definition result_row (dest : value) : St unit :=
  name <- lift (getitem dest (lit "name")) ;;
  put (st_write (lit "**" ++ str_of name ++ lit "**")) ;;
  address <- lift (get dest (lit "address") VNone) ;;
  (if truthy address
   then address <- lift (getitem dest (lit "address")) ;;
        put (st_write (lit "📍 " ++ str_of address))
   else ret tt) ;;
  id <- lift (getitem dest (lit "id")) ;;
  pressed <- button i (lit "Seleccionar") (Some (lit "dest_" ++ str_of id)) ;;
  if pressed : bool
  then set_selected_destination dest ;; st_rerun
  else ret tt.

(** the selected destination and the button that computes the route *)
Definition selected_section (location : value) : St unit :=
  ss <- get_session ;;
  if truthy (selected_destination ss) then
    let dest := selected_destination ss in
    name <- lift (getitem dest (lit "name")) ;;
    put (st_success (lit "✅ Destino seleccionado: **" ++ str_of name ++ lit "**")) ;;
    pressed <- button i (lit "🔄 Calcular Ruta Óptima") None ;;
    if pressed : bool then
      origin_lat <- lift (getitem location (lit "latitude")) ;;
      origin_lng <- lift (getitem location (lit "longitude")) ;;
      destination_name <- lift (getitem dest (lit "name")) ;;
      destination_lat <- lift (get dest (lit "latitude") VNone) ;;
      destination_lng <- lift (get dest (lit "longitude") VNone) ;;
      route_data <- calculate_route origin_lat origin_lng destination_name
                                    destination_lat destination_lng ;;
      if truthy route_data
      then set_route_data route_data ;; set_show_results (VBool true)
      else put (st_error (lit "No se pudo calcular la ruta. Intenta nuevamente."))
    else ret tt
  else ret tt.

(** the computed route and the three action buttons *)
Definition results_section : St unit :=
  ss <- get_session ;;
  if truthy (show_results ss) && truthy (route_data ss) then
    put (st_markdown (lit "---")) ;;
    put (st_markdown (lit "### 🗺️ Ruta Calculada")) ;;
    let route_data := route_data ss in
    display_route_map route_data ;;
    companies <- lift (get route_data (lit "transport_companies") (VList [])) ;;
    display_transport_companies companies ;;
    display_route_instructions route_data ;;
    (* report *)
    go <- has_route route_data ;;
    (if go : bool then
       pressed <- button i (lit "📄 Descargar Reporte PDF") None ;;
       if pressed : bool then
         put (st_spinner (lit "Generando reporte...")) ;;
         request_id <- lift (get route_data (lit "request_id") VNone) ;;
         report <- download_report request_id ;;
         if truthy (fst report) then
           put (st_download_button (lit "⬇️ Descargar PDF") (fst report) (snd report)
                                   (lit "application/pdf")) ;;
           put (st_success (lit "✅ Reporte generado exitosamente"))
         else ret tt
       else ret tt
     else ret tt) ;;
    (* new route *)
    pressed <- button i (lit "🔄 Calcular Nueva Ruta") None ;;
    (if pressed : bool then
       set_show_results (VBool false) ;;
       set_route_data VNone ;;
       set_selected_destination VNone ;;
       st_rerun
     else ret tt) ;;
    (* feedback *)
    pressed <- button i (lit "⭐ Enviar Feedback") None ;;
    if pressed : bool
    then put (st_info (lit "Funcionalidad de feedback en desarrollo"))
    else ret tt
  else ret tt.

Definition main : St unit :=
  location <- get_current_location ;;
  if truthy location then
    (* where the user is *)
    lat <- lift (getitem location (lit "latitude")) ;;
    lat6 <- lift (format_f 6 lat) ;;
    put (st_metric (lit "Latitud") lat6) ;;
    lon <- lift (getitem location (lit "longitude")) ;;
    lon6 <- lift (format_f 6 lon) ;;
    put (st_metric (lit "Longitud") lon6) ;;
    lat <- lift (getitem location (lit "latitude")) ;;
    lon <- lift (getitem location (lit "longitude")) ;;
    put (st_map (VList [VDict [(lit "lat", lat); (lit "lon", lon)]]) 13) ;;
    (* the destination box and the search *)
    put (st_markdown (lit "### 🎯 Ingresa tu Destino")) ;;
    put (st_text_input (lit "Lugar de destino:")
           (lit "Ej: Mall Aventura Plaza, Universidad Nacional, Hospital Regional...")) ;;
    (if truthy (VStr (destination_input i)) && (3 <=? len (destination_input i)) then
       put (st_spinner (lit "Buscando destinos...")) ;;
       destinations <- search_destinations (Some (destination_input i)) ;;
       if truthy destinations then
         put (st_markdown (lit "**Resultados de búsqueda:**")) ;;
         items <- lift (iter destinations) ;;
         for_each result_row items
       else ret tt
     else ret tt) ;;
    selected_section location ;;
    results_section
  else ret tt.

End App.

(** one run of the script from a session *)
Definition run (py : Runtime) (app : TransportApp) (i : Interaction)
               (ss : SessionState) : result unit * script :=
  main py app i (mkScript ss []).

(** the labels of the buttons of the route tab *)
Definition btn_calculate : str * option str := (lit "🔄 Calcular Ruta Óptima", None).
Definition btn_new_route : str * option str := (lit "🔄 Calcular Nueva Ruta", None).
Definition btn_select (id : str) : str * option str :=
  (lit "Seleccionar", Some (lit "dest_" ++ id)).

(** the requests of a trace *)
Definition requests_of (t : list event) : list request :=
  flat_map (fun e => match e with Requested r => [r] | _ => [] end) t.

(** ** A runtime and a service for the examples

    [repr] as CPython prints [None], booleans and ints; a strict RFC 4648
    decoder, which agrees with [base64.b64decode] on canonical input. *)

Module Demo.

Definition repr_int (z : Z) : str :=
  lit (DecimalString.NilZero.string_of_int (Z.to_int z)).

Definition repr (v : value) : str :=
  match v with
  | VNone => lit "None"
  | VBool true => lit "True"
  | VBool false => lit "False"
  | VInt z => repr_int z
  | VFloat _ => lit "<float>"
  | VStr s => lit "'" ++ s ++ lit "'"
  | VBytes _ => lit "<bytes>"
  | VList _ => lit "<list>"
  | VDict _ => lit "<dict>"
  end.

Definition sextet (c : N) : option N :=
  (if (65 <=? c) && (c <=? 90) then Some (c - 65)
   else if (97 <=? c) && (c <=? 122) then Some (c - 71)
   else if (48 <=? c) && (c <=? 57) then Some (c + 4)
   else if c =? 43 then Some 62
   else if c =? 47 then Some 63
   else None)%N.

Definition octets (a b c d : N) : option (list N) :=
  match sextet a, sextet b, sextet c, sextet d with
  | Some x, Some y, Some z, Some w =>
      Some [ x * 4 + y / 16; (y mod 16) * 16 + z / 4; (z mod 4) * 64 + w ]%N
  | _, _, _, _ => None
  end.

Fixpoint decode_quads (s : str) : option (list N) :=
  match s with
  | [] => Some []
  | [a; b; 61; 61]%N => option_map (firstn 1) (octets a b 65 65)
  | [a; b; c; 61]%N => option_map (firstn 2) (octets a b c 65)
  | a :: b :: c :: d :: rest =>
      match octets a b c d, decode_quads rest with
      | Some x, Some y => Some (x ++ y)
      | _, _ => None
      end
  | _ => None
  end.

Fixpoint to_bytes (l : list N) : option (list byte) :=
  match l with
  | [] => Some []
  | n :: rest =>
      match Byte.of_N n, to_bytes rest with
      | Some b, Some bs => Some (b :: bs)
      | _, _ => None
      end
  end.

Definition b64decode (v : value) : option (list byte) :=
  match v with
  | VStr s =>
      match decode_quads s with
      | Some l => to_bytes l
      | None => None
      end
  | _ => None
  end.

Definition runtime : Runtime :=
  Build_Runtime repr (fun _ _ => lit "<float>") (fun _ => lit "<exception>") b64decode.

Definition app : TransportApp := TransportApp_init None.

(** a service that is down *)
Definition down : request -> http_result := fun _ => NoResponse.

(** a service that answers every request with [status] and [body] *)
Definition answers (status : Z) (body : value) : request -> http_result :=
  fun _ => Response status (Some body).

Definition mall : value :=
  VDict [ (lit "id", VInt 1); (lit "name", VStr (lit "Mall Aventura Plaza"));
          (lit "latitude", VInt (-8)); (lit "longitude", VInt (-79)) ].

(** a route with a boarding stop and nothing else that is optional *)
Definition short_route : list (str * value) :=
  [ (lit "origin_lat", VInt (-8)); (lit "origin_lng", VInt (-79));
    (lit "boarding_lat", VInt (-8)); (lit "boarding_lng", VInt (-78)) ].

(** a route to a destination, with both paths *)
Definition full_route : list (str * value) :=
  short_route ++
  [ (lit "boarding_stop_name", VStr (lit "Av. España"));
    (lit "destination_lat", VInt (-8)); (lit "destination_lng", VInt (-79));
    (lit "destination_name", VStr (lit "Mall Aventura Plaza"));
    (lit "walking_route_coordinates", VList [VList [VInt (-79); VInt (-8)]]);
    (lit "bus_route_coordinates", VList [VList [VInt (-78); VInt (-8)]]);
    (lit "walking_distance_km", VInt 1);
    (lit "confidence_score", VFloat (S754_finite false 4503599627370496 (-53)));
    (lit "walking_instructions", VList [VStr (lit "Camina por Av. España")]) ].




Definition response_of (route : list (str * value)) : value :=
  VDict [ (lit "route", VDict route); (lit "transport_companies", VList []);
          (lit "request_id", VInt 7) ].

Definition blank : script := mkScript initial_session [].

Definition plaza : value :=
  VDict [ (lit "id", VInt 2); (lit "name", VStr (lit "Plaza de Armas")) ].

(** the run that a press of [w] causes, with [text] in the destination box *)
Definition pressing (w : str * option str) (text : str)
                    (service : request -> http_result) : Interaction :=
  mkInteraction (Some w) text (lit "2026-01-01T00:00:00") service.

(** a destination is selected, no route yet *)
Definition destination_selected : SessionState :=
  mkSession (VBool false) VNone mall.

(** a route to the plaza is shown *)
Definition route_ready : SessionState :=
  mkSession (VBool true) (response_of full_route) plaza.

End Demo.


(** * Vocabulary of the statements *)

Arguments lit : simpl never.

(** [m] leaves the session as it is, never calls [st.rerun()], and every
    event it adds to the trace satisfies [E] *)
Definition tame (E : event -> Prop) {A} (m : St A) : Prop :=
  forall s, exists out,
    snd (m s) = mkScript (session_state s) (trace s ++ out) /\
    Forall E out /\
    fst (m s) <> Rerun.


(** the requests of the three methods that call the service *)
Definition search_request (self : TransportApp) (q : str) : request :=
  GET (api_url self ++ lit "/search") [(lit "q", VStr q)].

Definition route_url (self : TransportApp) : str :=
  api_url self ++ lit "/calculate-route".

Definition report_request (self : TransportApp) (route_result_id : value) : request :=
  POST (api_url self ++ lit "/generate-report")
       (VDict [(lit "route_result_id", route_result_id)]).

(** what [st.button(label, key=key)] gives in the run [i] *)
Definition pressed (i : Interaction) (label : str) (key : option str) : bool :=
  match clicked i with
  | Some w => widget_eqb w (label, key)
  | None => false
  end.

(** [m] writes the session only when it stops the run with [st.rerun()], and
    then the session before and after are related by [R] *)
Definition steps (R : SessionState -> SessionState -> Prop) {A} (m : St A) : Prop :=
  forall s,
    match fst (m s) with
    | Rerun => R (session_state s) (session_state (snd (m s)))
    | _ => session_state (snd (m s)) = session_state s
    end.

(** [m] keeps a property of the trace *)
Definition preserves (I : list event -> Prop) {A} (m : St A) : Prop :=
  forall s, I (trace s) -> I (trace (snd (m s))).

Definition is_route_request (self : TransportApp) (r : request) : bool :=
  match r with
  | POST url _ => str_eqb url (route_url self)
  | GET _ _ => false
  end.

(** reading a trace from the left: [false] after a route request, [true]
    again after an error message *)
Definition answer_step (self : TransportApp) (ok : bool) (e : event) : bool :=
  match e with
  | Requested r => if is_route_request self r then false else ok
  | Shown (st_error _) => true
  | Shown _ => ok
  end.

(** every route request of the trace is followed by an error message *)
Definition answered (self : TransportApp) (t : list event) : bool :=
  fold_left (answer_step self) t true.

Definition all_answered (self : TransportApp) (t : list event) : Prop :=
  answered self t = true.

(** an event that is not a route request *)
Definition not_route_request (self : TransportApp) (e : event) : Prop :=
  match e with
  | Requested r => is_route_request self r = false
  | Shown _ => True
  end.

(** the route computation fails: no response, or a status that is not 200 *)
Definition route_call_fails (self : TransportApp) (i : Interaction) : Prop :=
  forall payload,
    match http i (POST (route_url self) payload) with
    | NoResponse => True
    | Response status _ => status <> 200
    end.

(** the session after "Seleccionar" on the result whose button has [key] *)
Definition selects (py : Runtime) (key : str) (ss ss' : SessionState) : Prop :=
  exists dest id,
    getitem dest (lit "id") = Ret id /\
    lit "dest_" ++ str_of py id = key /\
    ss' = mkSession (show_results ss) (route_data ss) dest.

(** the computed route stays stored and shown *)
Definition keeps_route (ss ss' : SessionState) : Prop :=
  route_data ss' = route_data ss /\ show_results ss' = show_results ss.





Section RouteFields.

Variable py : Runtime.

(** [route.get(k)] on the items of the route object *)
Definition field (route : list (str * value)) (k : string) : value :=
  match lookup (lit k) route with
  | Some v => v
  | None => VNone
  end.

Definition has_field (route : list (str * value)) (k : string) : Prop :=
  lookup (lit k) route <> None.

(** the test of line 150: both destination coordinates hold a true value *)
Definition destination_available (route : list (str * value)) : bool :=
  truthy (field route "destination_lat") && truthy (field route "destination_lng").

(** [route.get('boarding_stop_name', 'Parada recomendada')] *)
Definition stop_name (route : list (str * value)) : value :=
  match lookup (lit "boarding_stop_name") route with
  | Some v => v
  | None => VStr (lit "Parada recomendada")
  end.

(** A response that [display_route_map] draws: an object whose [route] is an
    object with the four coordinates it subscripts, and with the
    [destination_name] it subscripts when the destination is available. *)
Record drawable (route_data : value) (route : list (str * value)) : Prop := {
  drawable_route :
    exists d, route_data = VDict d /\ lookup (lit "route") d = Some (VDict route);
  drawable_origin_lng : has_field route "origin_lng";
  drawable_origin_lat : has_field route "origin_lat";
  drawable_boarding_lng : has_field route "boarding_lng";
  drawable_boarding_lat : has_field route "boarding_lat";
  drawable_destination :
    destination_available route = true -> has_field route "destination_name"
}.

Definition route_points (route : list (str * value)) : list value :=
  [ origin_point (field route "origin_lng") (field route "origin_lat");
    boarding_point py (stop_name route)
                   (field route "boarding_lng") (field route "boarding_lat") ] ++
  (if destination_available route
   then [ destination_point py (field route "destination_name")
                            (field route "destination_lng") (field route "destination_lat") ]
   else []).

Definition route_paths (route : list (str * value)) : list Layer :=
  (if truthy (field route "walking_route_coordinates")
   then [walking_layer (field route "walking_route_coordinates")] else []) ++
  (if truthy (field route "bus_route_coordinates")
   then [bus_layer (field route "bus_route_coordinates")] else []).

Definition route_deck (route : list (str * value)) : Deck :=
  mkDeck (route_paths route ++ [points_layer (route_points route)])
         (mkViewState (field route "origin_lat") (field route "origin_lng") 14 0)
         map_tooltip.

(** the script after one more chart *)
Definition drawn (s : script) (deck : Deck) : script :=
  mkScript (session_state s) (trace s ++ [Shown (st_pydeck_chart deck)]).

Definition list_or_absent (route : list (str * value)) (k : string) : Prop :=
  lookup (lit k) route = None \/ exists l, lookup (lit k) route = Some (VList l).

Definition nonempty_list (route : list (str * value)) (k : string) : Prop :=
  exists x l, lookup (lit k) route = Some (VList (x :: l)).


End RouteFields.

(** * Vocabulary of the further statements *)

(** an error message is among the events *)
Definition shows_error (out : list event) : Prop :=
  exists message, In (Shown (st_error message)) out.

(** the body that [calculate_route] posts *)
Definition route_payload (i : Interaction)
           (origin_lat origin_lng destination_name destination_lat destination_lng : value)
  : value :=
  VDict [ (lit "origin_lat", origin_lat);
          (lit "origin_lng", origin_lng);
          (lit "destination_name", destination_name);
          (lit "destination_lat", destination_lat);
          (lit "destination_lng", destination_lng);
          (lit "timestamp", VStr (now_isoformat i));
          (lit "user_agent", VStr (lit "streamlit-app")) ].

(** a body that is no JSON object *)
Definition not_an_object (v : value) : Prop :=
  match v with
  | VDict _ => False
  | _ => True
  end.

(** none of the keys [ks] is in the route object *)
Definition lacks (route : list (str * value)) (ks : list string) : Prop :=
  Forall (fun k => lookup (lit k) route = None) ks.



(** the session before and after [m] are related by [R], however [m] ends *)
Definition moves (R : SessionState -> SessionState -> Prop) {A} (m : St A) : Prop :=
  forall s, R (session_state s) (session_state (snd (m s))).

(** results are shown only with a route stored *)
Definition consistent (ss : SessionState) : Prop :=
  truthy (show_results ss) = true -> truthy (route_data ss) = true.

Definition stays_consistent (ss ss' : SessionState) : Prop :=
  consistent ss -> consistent ss'.

(** what "Calcular Ruta Óptima" can do to the session: nothing, or store the
    body of a 200 answer, which is a true value, and show the results *)
Definition computed (self : TransportApp) (i : Interaction) (ss ss' : SessionState) : Prop :=
  ss' = ss \/
  exists payload r,
    http i (POST (route_url self) payload) = Response 200 (Some r) /\
    truthy r = true /\
    ss' = mkSession (VBool true) r (selected_destination ss).

(** an event that is not a GET request *)
Definition no_search (e : event) : Prop :=
  match e with
  | Requested (GET _ _) => False
  | _ => True
  end.

(** an event that is no request *)
Definition on_page (e : event) : Prop :=
  match e with
  | Shown _ => True
  | Requested _ => False
  end.

(** a route request carries the default location of the application as its
    origin, the time of the run and the user agent of the application *)
Definition from_default_location (self : TransportApp) (i : Interaction) (e : event) : Prop :=
  match e with
  | Requested (POST url payload) =>
      url = route_url self ->
      getitem payload (lit "origin_lat") = getitem (default_location self) (lit "latitude") /\
      getitem payload (lit "origin_lng") = getitem (default_location self) (lit "longitude") /\
      getitem payload (lit "timestamp") = Ret (VStr (now_isoformat i)) /\
      getitem payload (lit "user_agent") = Ret (VStr (lit "streamlit-app"))
  | _ => True
  end.

(** ** Further samples *)

Module Samples.

(** a body without [route] *)
Definition refusal : list (str * value) :=
  [ (lit "error", VStr (lit "sin rutas")) ].

(** the items of [Demo.response_of route] *)
Definition items_of (route : list (str * value)) : list (str * value) :=
  [ (lit "route", VDict route); (lit "transport_companies", VList []);
    (lit "request_id", VInt 7) ].

(** a run that nothing pressed causes, with "Mall" in the box *)
Definition typing : Interaction :=
  mkInteraction None (lit "Mall") (lit "2026-01-01T00:00:00")
                (Demo.answers 200 (VList [Demo.mall])).

(** the body of the route request for the mall *)
Definition mall_payload : value :=
  VDict [ (lit "origin_lat", VFloat (S754_finite true 4568182371926896 (-49)));
          (lit "origin_lng", VFloat (S754_finite true 5561847797616900 (-46)));
          (lit "destination_name", VStr (lit "Mall Aventura Plaza"));
          (lit "destination_lat", VInt (-8));
          (lit "destination_lng", VInt (-79));
          (lit "timestamp", VStr (lit "2026-01-01T00:00:00"));
          (lit "user_agent", VStr (lit "streamlit-app")) ].

End Samples.
(** * Reasoning about scripts *)

Lemma script_eta (s : script) : mkScript (session_state s) (trace s ++ []) = s.
Proof. destruct s; simpl; now rewrite app_nil_r. Qed.

Lemma str_eqb_eq (a b : str) : str_eqb a b = true <-> a = b.
Proof. unfold str_eqb; destruct (list_eq_dec N.eq_dec a b); split; congruence. Qed.

Lemma str_eqb_refl (a : str) : str_eqb a a = true.
Proof. now apply str_eqb_eq. Qed.

(** ** Pieces that neither touch the session nor stop the run *)

Section Tame.

Variable E : event -> Prop.

Lemma tame_ret {A} (a : A) : tame E (ret a).
Proof. intro s; exists []; simpl; rewrite script_eta; repeat split; auto; discriminate. Qed.

Lemma tame_raise {A} (e : exn) : tame E (@raise A e).
Proof. intro s; exists []; simpl; rewrite script_eta; repeat split; auto; discriminate. Qed.

Lemma tame_lift {A} (r : outcome A) : tame E (lift r).
Proof. destruct r; [apply tame_ret | apply tame_raise]. Qed.

Lemma tame_json_of (b : option value) : tame E (json_of b).
Proof. destruct b; [apply tame_ret | apply tame_raise]. Qed.

Lemma tame_emit (e : event) : E e -> tame E (emit e).
Proof. intros He s; exists [e]; simpl; repeat split; auto; discriminate. Qed.

Lemma tame_put (e : element) : E (Shown e) -> tame E (put e).
Proof. apply tame_emit. Qed.

Lemma tame_get_session : tame E get_session.
Proof. intro s; exists []; simpl; rewrite script_eta; repeat split; auto; discriminate. Qed.

Lemma tame_bind {A B} (m : St A) (k : A -> St B) :
  tame E m -> (forall a, tame E (k a)) -> tame E (bind m k).
Proof.
  intros Hm Hk s. unfold bind.
  destruct (Hm s) as (o1 & E1 & F1 & N1).
  destruct (m s) as [r s1]; simpl in *; subst s1.
  destruct r as [a | e | ]; simpl.
  - destruct (Hk a (mkScript (session_state s) (trace s ++ o1))) as (o2 & E2 & F2 & N2).
    exists (o1 ++ o2). simpl in E2. rewrite E2, app_assoc.
    repeat split; auto. now apply Forall_app.
  - exists o1; repeat split; auto; discriminate.
  - congruence.
Qed.

Lemma tame_try {A} (m : St A) (h : exn -> St A) :
  tame E m -> (forall e, tame E (h e)) -> tame E (try_except m h).
Proof.
  intros Hm Hh s. unfold try_except.
  destruct (Hm s) as (o1 & E1 & F1 & N1).
  destruct (m s) as [r s1]; simpl in *; subst s1.
  destruct r as [a | e | ]; simpl.
  - exists o1; repeat split; auto; discriminate.
  - destruct (Hh e (mkScript (session_state s) (trace s ++ o1))) as (o2 & E2 & F2 & N2).
    exists (o1 ++ o2). simpl in E2. rewrite E2, app_assoc.
    repeat split; auto. now apply Forall_app.
  - congruence.
Qed.

Lemma tame_send (i : Interaction) (r : request) : E (Requested r) -> tame E (send i r).
Proof.
  intro Hr. unfold send. apply tame_bind; [now apply tame_emit | intros _].
  destruct (http i r); [apply tame_raise | apply tame_ret].
Qed.

Lemma tame_button (i : Interaction) (label : str) (key : option str) :
  (forall e, E (Shown e)) -> tame E (button i label key).
Proof.
  intro HE. unfold button. apply tame_bind; [apply tame_put, HE | intros _; apply tame_ret].
Qed.

Lemma tame_for_each {A} (body : A -> St unit) (items : list A) :
  (forall x, tame E (body x)) -> tame E (for_each body items).
Proof.
  intro Hb. induction items as [| x rest IH]; simpl.
  - apply tame_ret.
  - apply tame_bind; auto.
Qed.

End Tame.

Ltac tame_step :=
  match goal with
  | |- tame _ (ret _) => apply tame_ret
  | |- tame _ (raise _) => apply tame_raise
  | |- tame _ (lift _) => apply tame_lift
  | |- tame _ (json_of _) => apply tame_json_of
  | |- tame _ (put _) => apply tame_put; auto
  | |- tame _ (send _ _) => apply tame_send; auto
  | |- tame _ (button _ _ _) => apply tame_button; auto
  | |- tame _ get_session => apply tame_get_session
  | |- tame _ (for_each _ _) => apply tame_for_each; intro
  | |- tame _ (bind _ _) => apply tame_bind; [ | intro ]
  | |- tame _ (try_except _ _) => apply tame_try; [ | intro ]
  | |- tame _ (if ?b then _ else _) => destruct b
  | |- tame _ (match ?x with _ => _ end) => destruct x
  end.

Ltac tame_tac := cbv zeta; repeat tame_step.

Section TameMethods.

Variable py : Runtime.
Variable E : event -> Prop.
Hypothesis shown_ok : forall e, E (Shown e).

Lemma tame_has_route (route_data : value) : tame E (has_route route_data).
Proof. unfold has_route; tame_tac. Qed.

Lemma tame_display_route_map (route_data : value) :
  tame E (display_route_map py route_data).
Proof.
  unfold display_route_map.
  apply tame_bind; [apply tame_has_route | intro]. tame_tac.
Qed.

Lemma tame_write_instructions (items : list value) :
  forall start, tame E (write_instructions py start items).
Proof.
  induction items as [| x rest IH]; intro start; simpl; tame_tac. apply IH.
Qed.

Lemma tame_display_route_instructions (route_data : value) :
  tame E (display_route_instructions py route_data).
Proof.
  unfold display_route_instructions.
  apply tame_bind; [apply tame_has_route | intro].
  tame_tac; apply tame_write_instructions.
Qed.

Lemma tame_display_company (company : value) : tame E (display_company py company).
Proof. unfold display_company; tame_tac. Qed.

Lemma tame_display_transport_companies (companies : value) :
  tame E (display_transport_companies py companies).
Proof.
  unfold display_transport_companies; tame_tac. apply tame_display_company.
Qed.

Lemma tame_get_current_location (self : TransportApp) (i : Interaction) :
  tame E (get_current_location py self i).
Proof. unfold get_current_location; tame_tac. Qed.

End TameMethods.

(** * The map layers *)

Section MapLayers.

Variable py : Runtime.


Lemma display_route_map_draws (route_data : value) (route : list (str * value)) (s : script) :
  drawable route_data route ->
  display_route_map py route_data s = (Returned tt, drawn s (route_deck py route)).
Proof.
  intros [(d & -> & Hr) Holng Holat Hblng Hblat Hdest].
  unfold route_deck, route_points, route_paths, destination_available,
    has_field, field, stop_name, drawn in *.
  assert (Ht : truthy (VDict d) = true) by (destruct d; [discriminate | reflexivity]).
  unfold display_route_map, has_route.
  rewrite Ht.
  unfold bind, lift, ret, raise, put, emit, getitem, get, contains.
  rewrite Hr. simpl.
  destruct (lookup (lit "origin_lng") route) as [olng |]; [| contradiction].
  destruct (lookup (lit "origin_lat") route) as [olat |]; [| contradiction].
  destruct (lookup (lit "boarding_lng") route) as [blng |]; [| contradiction].
  destruct (lookup (lit "boarding_lat") route) as [blat |]; [| contradiction].
  set (available := truthy _ && truthy _) in Hdest.
  destruct (lookup (lit "destination_name") route) as [dname |];
    [clear Hdest | assert (Hna : available = false)
                     by (destruct available; [now exfalso; apply Hdest | reflexivity]);
                   clear Hdest; subst available];
    destruct (lookup (lit "boarding_stop_name") route) as [bname |];
    destruct (lookup (lit "destination_lat") route) as [dlat |]; simpl in *;
    try destruct (truthy dlat); simpl in *;
    destruct (lookup (lit "destination_lng") route) as [dlng |]; simpl in *;
    try destruct (truthy dlng); simpl in *; try discriminate;
    destruct (lookup (lit "walking_route_coordinates") route) as [w |]; simpl;
    try destruct (truthy w); simpl;
    destruct (lookup (lit "bus_route_coordinates") route) as [b |]; simpl;
    try destruct (truthy b); simpl; reflexivity.
Qed.


Lemma truthy_field_list (route : list (str * value)) (k : string) :
  list_or_absent route k ->
  truthy (field route k) = true <-> nonempty_list route k.
Proof.
  unfold list_or_absent, nonempty_list, field.
  intros [-> | (l & ->)]; simpl.
  - split; [discriminate | intros (x & l & H); discriminate].
  - destruct l as [| x l]; split; try discriminate; eauto.
    intros (y & l' & H); discriminate.
Qed.

Lemma walking_in_paths (route : list (str * value)) (points : list value) :
  (exists p, In (walking_layer p) (route_paths route ++ [points_layer points])) <->
  truthy (field route "walking_route_coordinates") = true.
Proof.
  unfold route_paths. split.
  - intros (p & H). destruct (truthy (field route "walking_route_coordinates")); auto.
    destruct (truthy (field route "bus_route_coordinates")); simpl in H;
      repeat (destruct H as [H | H]; [discriminate H |]); contradiction.
  - intros ->. eexists. simpl. left. reflexivity.
Qed.

Lemma bus_in_paths (route : list (str * value)) (points : list value) :
  (exists p, In (bus_layer p) (route_paths route ++ [points_layer points])) <->
  truthy (field route "bus_route_coordinates") = true.
Proof.
  unfold route_paths. split.
  - intros (p & H). destruct (truthy (field route "bus_route_coordinates")); auto.
    destruct (truthy (field route "walking_route_coordinates")); simpl in H;
      repeat (destruct H as [H | H]; [discriminate H |]); contradiction.
  - intros ->. eexists. apply in_or_app. left. apply in_or_app. right. left. reflexivity.
Qed.


(** a response that is not [drawable] leaves the page as it is *)
Lemma display_route_map_cases (route_data : value) (s : script) :
  (exists route, drawable route_data route) \/
  snd (display_route_map py route_data s) = s.
Proof.
  unfold display_route_map, has_route.
  destruct (truthy route_data) eqn:Ht; [| now right].
  unfold bind, lift, ret, raise, put, emit, getitem, get, contains.
  destruct route_data as [| | | | str_data | | items | d]; simpl; try (now right).
  - destruct (substring _ str_data); now right.
  - destruct (existsb _ items); now right.
  - destruct (lookup (lit "route") d) as [v |] eqn:Hr; simpl; [| now right].
    destruct v as [| | | | | | | route]; simpl; try (now right).
    destruct (lookup (lit "origin_lng") route) eqn:H1; simpl; [| now right].
    destruct (lookup (lit "origin_lat") route) eqn:H2; simpl; [| now right].
    destruct (lookup (lit "boarding_stop_name") route) eqn:H0; simpl;
      (destruct (lookup (lit "boarding_lng") route) eqn:H3; simpl; [| now right]);
      (destruct (lookup (lit "boarding_lat") route) eqn:H4; simpl; [| now right]);
      (destruct (destination_available route) eqn:Ha;
       [ destruct (lookup (lit "destination_name") route) eqn:H5;
         [ left; exists route; constructor; unfold has_field; try congruence; eauto
         | right; revert Ha; unfold destination_available, field;
           destruct (lookup (lit "destination_lat") route) as [dlat |]; simpl;
           [| discriminate]; destruct (truthy dlat); simpl; [| discriminate];
           destruct (lookup (lit "destination_lng") route) as [dlng |]; simpl;
           [| discriminate]; destruct (truthy dlng); simpl; [| discriminate];
           reflexivity ]
       | left; exists route; constructor; unfold has_field; try congruence; eauto ]).
Qed.


(** C5.  For a response that [display_route_map] draws and whose path
    coordinates, when present, are lists: the chart has a walking path layer
    iff [walking_route_coordinates] is present and non-empty, a bus path
    layer iff [bus_route_coordinates] is present and non-empty, and when
    neither is so it has the point layer only. *)
Theorem path_layers_iff_coordinates (route_data : value) (route : list (str * value))
                                    (s : script) :
  drawable route_data route ->
  list_or_absent route "walking_route_coordinates" ->
  list_or_absent route "bus_route_coordinates" ->
  exists ls view,
    display_route_map py route_data s = (Returned tt, drawn s (mkDeck ls view map_tooltip)) /\
    ((exists path, In (walking_layer path) ls) <->
     nonempty_list route "walking_route_coordinates") /\
    ((exists path, In (bus_layer path) ls) <->
     nonempty_list route "bus_route_coordinates") /\
    (~ nonempty_list route "walking_route_coordinates" ->
     ~ nonempty_list route "bus_route_coordinates" ->
     exists points, ls = [points_layer points]).
Proof.
  intros Hd Hw Hb.
  exists (route_paths route ++ [points_layer (route_points py route)]),
         (initial_view_state (route_deck py route)).
  split; [now apply display_route_map_draws |].
  split; [| split].
  - rewrite walking_in_paths. now apply truthy_field_list.
  - rewrite bus_in_paths. now apply truthy_field_list.
  - intros Nw Nb. exists (route_points py route).
    rewrite <- truthy_field_list in Nw, Nb by assumption.
    unfold route_paths.
    destruct (truthy (field route "walking_route_coordinates")); [now elim Nw |].
    destruct (truthy (field route "bus_route_coordinates")); [now elim Nb |].
    reflexivity.
Qed.


End MapLayers.

(** ** Rendering that completes *)







Section Rendering.

Variable py : Runtime.







End Rendering.

(** ** Statelessness *)








(** * The search and the report *)

Lemma lstrip_length (s : str) : (List.length (lstrip s) <= List.length s)%nat.
Proof.
  induction s as [| c s IH]; simpl; [lia |].
  destruct (is_space c); simpl; lia.
Qed.

Lemma strip_length (s : str) : len (strip s) <= len s.
Proof.
  unfold len, strip, rstrip. apply inj_le.
  rewrite length_rev.
  etransitivity; [apply lstrip_length |].
  rewrite length_rev. apply lstrip_length.
Qed.

Section Service.

Variable py : Runtime.
Variable self : TransportApp.
Variable i : Interaction.

(** C9 (amended).  [search_destinations] returns the empty list without
    calling the service for no query and for every query that has fewer than
    3 characters once its surrounding white space is stripped, hence for
    every query shorter than 3 characters; for every query with 3 or more
    characters left after stripping, it calls the /search endpoint with that
    query. *)
Theorem search_needs_three_characters (s : script) :
  search_destinations py self i None s = (Returned (VList []), s) /\
  (forall q, len (strip q) < 3 ->
             search_destinations py self i (Some q) s = (Returned (VList []), s)) /\
  (forall q, len q < 3 ->
             search_destinations py self i (Some q) s = (Returned (VList []), s)) /\
  (forall q, 3 <= len (strip q) ->
             exists r out,
               search_destinations py self i (Some q) s =
                 (r, mkScript (session_state s)
                              (trace s ++ Requested (search_request self q) :: out))).
Proof.
  assert (Hshort : forall q, len (strip q) < 3 ->
             search_destinations py self i (Some q) s = (Returned (VList []), s)).
  { intros q Hq. unfold search_destinations, try_except.
    replace (len (strip q) <? 3) with true by (symmetry; now apply Z.ltb_lt).
    now rewrite orb_true_r. }
  split; [reflexivity |]. split; [exact Hshort |]. split.
  - intros q Hq. apply Hshort. pose proof (strip_length q). lia.
  - intros q Hq. unfold search_destinations, try_except, search_request.
    assert (Ht : truthy (VStr q) = true).
    { destruct q; [simpl in Hq; unfold len in Hq; simpl in Hq; lia | reflexivity]. }
    rewrite Ht. replace (len (strip q) <? 3) with false by (symmetry; apply Z.ltb_ge; lia).
    simpl orb. cbv iota.
    unfold bind, send, emit, bind, raise, ret, put, emit, json_of.
    destruct (http i _) as [| status body]; simpl.
    + do 2 eexists. rewrite <- app_assoc. reflexivity.
    + destruct (status =? 200).
      * destruct body; simpl.
        -- exists (Returned v), []. reflexivity.
        -- do 2 eexists. rewrite <- app_assoc. reflexivity.
      * exists (Returned (VList [])), []. reflexivity.
Qed.

(** C4.  [download_report] always returns to its caller, never raising: it
    gives [(None, None)] when the call fails, when the status is not 200 and
    when the body has [success] false or absent; and when the body has
    [success] true, a payload that base64 decodes and a filename, it gives
    the decoded bytes and that filename. *)
Theorem download_report_not_available (route_result_id : value) (s : script) :
  (exists report s',
     download_report py self i route_result_id s = (Returned report, s')) /\
  (http i (report_request self route_result_id) = NoResponse ->
   fst (download_report py self i route_result_id s) = Returned (VNone, VNone)) /\
  (forall status body,
     http i (report_request self route_result_id) = Response status body ->
     status <> 200 ->
     download_report py self i route_result_id s =
       (Returned (VNone, VNone),
        mkScript (session_state s)
                 (trace s ++ [Requested (report_request self route_result_id)]))) /\
  (forall d,
     http i (report_request self route_result_id) = Response 200 (Some (VDict d)) ->
     lookup (lit "success") d = None \/ lookup (lit "success") d = Some (VBool false) ->
     download_report py self i route_result_id s =
       (Returned (VNone, VNone),
        mkScript (session_state s)
                 (trace s ++ [Requested (report_request self route_result_id)]))) /\
  (forall d payload pdf_bytes filename,
     http i (report_request self route_result_id) = Response 200 (Some (VDict d)) ->
     lookup (lit "success") d = Some (VBool true) ->
     lookup (lit "pdf_base64") d = Some payload ->
     b64decode py payload = Some pdf_bytes ->
     lookup (lit "filename") d = Some filename ->
     download_report py self i route_result_id s =
       (Returned (VBytes pdf_bytes, filename),
        mkScript (session_state s)
                 (trace s ++ [Requested (report_request self route_result_id)]))).
Proof.
  unfold download_report, report_request, try_except, bind, send, emit, json_of,
    raise, ret, put, emit, lift, get, getitem.
  split; [| split; [| split; [| split]]].
  - destruct (http i _) as [| status body]; simpl; [eauto |].
    destruct (status =? 200); [| eauto].
    destruct body as [result |]; simpl; [| eauto].
    destruct result; simpl; eauto.
    destruct (lookup (lit "success") d) as [success |]; simpl; [| eauto].
    destruct (truthy success); [| eauto].
    destruct (lookup (lit "pdf_base64") d) as [payload |]; simpl; [| eauto].
    destruct (b64decode py payload); simpl; [| eauto].
    destruct (lookup (lit "filename") d); simpl; eauto.
  - intros ->. reflexivity.
  - intros status body -> Hs. simpl.
    replace (status =? 200) with false by (symmetry; now apply Z.eqb_neq).
    reflexivity.
  - intros d -> H. simpl. destruct H as [-> | ->]; reflexivity.
  - intros d payload pdf_bytes filename -> Hs Hp Hb Hf. simpl.
    rewrite Hs. simpl. rewrite Hp. simpl. rewrite Hb. simpl. rewrite Hf. reflexivity.
Qed.

End Service.

(** * The session across a run *)

Lemma steps_tame (R : SessionState -> SessionState -> Prop) {A} (m : St A) :
  tame (fun _ => True) m -> steps R m.
Proof.
  intros H s. destruct (H s) as (out & E & _ & N).
  destruct (fst (m s)); try (rewrite E; reflexivity). congruence.
Qed.

Lemma steps_bind (R : SessionState -> SessionState -> Prop) {A B}
      (m : St A) (k : A -> St B) :
  steps R m -> (forall a, steps R (k a)) -> steps R (bind m k).
Proof.
  intros Hm Hk s. unfold bind. specialize (Hm s).
  destruct (m s) as [r s1]; simpl in *.
  destruct r as [a | e |]; simpl; auto.
  specialize (Hk a s1). destruct (k a s1) as [r2 s2]; simpl in *.
  destruct r2; congruence.
Qed.

Lemma steps_try (R : SessionState -> SessionState -> Prop) {A}
      (m : St A) (h : exn -> St A) :
  steps R m -> (forall e, steps R (h e)) -> steps R (try_except m h).
Proof.
  intros Hm Hh s. unfold try_except. specialize (Hm s).
  destruct (m s) as [r s1]; simpl in *.
  destruct r as [a | e |]; simpl; auto.
  specialize (Hh e s1). destruct (h e s1) as [r2 s2]; simpl in *.
  destruct r2; congruence.
Qed.

(** after a piece that returns [a] whatever the state, the rest runs on [a] *)
Lemma steps_returning (R : SessionState -> SessionState -> Prop) {A B}
      (a : A) (m : St A) (k : A -> St B) :
  (forall s, exists out, m s = (Returned a, mkScript (session_state s) (trace s ++ out))) ->
  steps R (k a) -> steps R (bind m k).
Proof.
  intros Hm Hk s. unfold bind. destruct (Hm s) as (out & ->).
  specialize (Hk (mkScript (session_state s) (trace s ++ out))). simpl in Hk.
  exact Hk.
Qed.

Lemma button_returns (i : Interaction) (label : str) (key : option str) (s : script) :
  button i label key s =
    (Returned (pressed i label key),
     mkScript (session_state s) (trace s ++ [Shown (st_button label key)])).
Proof. reflexivity. Qed.

Lemma steps_button (R : SessionState -> SessionState -> Prop) {B}
      (i : Interaction) (label : str) (key : option str) (k : bool -> St B) :
  steps R (k (pressed i label key)) -> steps R (bind (button i label key) k).
Proof.
  apply steps_returning. intro s. eexists. apply button_returns.
Qed.

Lemma steps_lifted (R : SessionState -> SessionState -> Prop) {A B}
      (r : outcome A) (k : A -> St B) :
  (forall a, r = Ret a -> steps R (k a)) -> steps R (bind (lift r) k).
Proof.
  intros Hk. destruct r as [a | e].
  - apply steps_returning with (a := a); [| now apply Hk].
    intro s. exists []. simpl. now rewrite script_eta.
  - intro s. reflexivity.
Qed.

Lemma steps_get_session (R : SessionState -> SessionState -> Prop) {B}
      (k : SessionState -> St B) :
  (forall ss, steps R (k ss)) -> steps R (bind get_session k).
Proof. intros Hk s. exact (Hk (session_state s) s). Qed.

Lemma steps_for_each (R : SessionState -> SessionState -> Prop) {A}
      (body : A -> St unit) (items : list A) :
  (forall x, steps R (body x)) -> steps R (for_each body items).
Proof.
  intro Hb. induction items as [| x rest IH]; simpl.
  - apply steps_tame, tame_ret.
  - apply steps_bind; auto.
Qed.

Lemma pressed_of_click (i : Interaction) (w : str * option str)
      (label : str) (key : option str) :
  clicked i = Some w -> pressed i label key = widget_eqb w (label, key).
Proof. unfold pressed. now intros ->. Qed.

Section MethodsThatCall.

Variable py : Runtime.
Variable self : TransportApp.
Variable i : Interaction.
Variable E : event -> Prop.
Hypothesis shown_ok : forall e, E (Shown e).

Lemma tame_search_destinations (query : option str) :
  (forall q, E (Requested (search_request self q))) ->
  tame E (search_destinations py self i query).
Proof.
  intro Hq. unfold search_destinations. tame_tac; apply Hq.
Qed.

Lemma tame_calculate_route (a b c d e : value) :
  (forall payload, E (Requested (POST (route_url self) payload))) ->
  tame E (calculate_route py self i a b c d e).
Proof.
  intro Hq. unfold calculate_route. tame_tac; apply Hq.
Qed.

Lemma tame_download_report (route_result_id : value) :
  E (Requested (report_request self route_result_id)) ->
  tame E (download_report py self i route_result_id).
Proof.
  intro Hq. unfold download_report. tame_tac.
Qed.

End MethodsThatCall.

Ltac tame_leaf :=
  first
    [ apply tame_get_current_location
    | apply tame_search_destinations
    | apply tame_calculate_route
    | apply tame_download_report
    | apply tame_display_route_map
    | apply tame_display_transport_companies
    | apply tame_display_route_instructions
    | apply tame_has_route
    | apply tame_ret
    | apply tame_lift
    | apply tame_put
    | apply tame_get_session ];
  try (intros; exact I).

Ltac steps_step :=
  match goal with
  | H : pressed _ ?l ?k = _ |- steps _ (if pressed _ ?l ?k then _ else _) => rewrite H
  | |- steps _ (bind (button _ _ _) _) => apply steps_button
  | |- steps _ (bind get_session _) => apply steps_get_session; intro
  | |- steps _ (bind _ _) => apply steps_bind; [ | intro ]
  | |- steps _ (try_except _ _) => apply steps_try; [ | intro ]
  | |- steps _ (for_each _ _) => apply steps_for_each; intro
  | |- steps _ (if ?b then _ else _) => destruct b eqn:?
  | |- steps _ _ => apply steps_tame; solve [tame_leaf]
  end.

Section Run.

Variable py : Runtime.
Variable self : TransportApp.
Variable i : Interaction.
Variable R : SessionState -> SessionState -> Prop.

(** the run is made of the three pieces that can write the session *)
Lemma steps_main :
  (forall dest, steps R (result_row py i dest)) ->
  (forall location, steps R (selected_section py self i location)) ->
  steps R (results_section py self i) ->
  steps R (main py self i).
Proof.
  intros Hrow Hsel Hres. unfold main.
  repeat first [ apply Hrow | apply Hsel | apply Hres | steps_step ].
Qed.

Lemma steps_result_row_idle (dest : value) :
  (forall key, pressed i (lit "Seleccionar") (Some key) = false) ->
  steps R (result_row py i dest).
Proof.
  intro Hp. unfold result_row.
  repeat first [ rewrite Hp | steps_step ].
Qed.

Lemma steps_selected_section_idle (location : value) :
  pressed i (lit "🔄 Calcular Ruta Óptima") None = false ->
  steps R (selected_section py self i location).
Proof.
  intro Hp. unfold selected_section. cbv zeta.
  repeat steps_step.
Qed.

Lemma steps_results_section_idle :
  pressed i (lit "🔄 Calcular Nueva Ruta") None = false ->
  steps R (results_section py self i).
Proof.
  intro Hp. unfold results_section. cbv zeta.
  repeat steps_step.
Qed.

(** *** "Calcular Nueva Ruta" *)

Lemma steps_reset :
  steps (fun _ ss' => ss' = initial_session)
        (set_show_results (VBool false) ;;
         set_route_data VNone ;;
         set_selected_destination VNone ;;
         @st_rerun unit).
Proof. intro s. reflexivity. Qed.

Lemma steps_results_section_reset :
  pressed i (lit "🔄 Calcular Nueva Ruta") None = true ->
  steps (fun _ ss' => ss' = initial_session) (results_section py self i).
Proof.
  intro Hp. unfold results_section. cbv zeta.
  repeat first [ apply steps_reset | steps_step ].
Qed.

(** *** "Seleccionar" *)

Lemma steps_select (key : str) (dest id : value) :
  getitem dest (lit "id") = Ret id ->
  lit "dest_" ++ str_of py id = key ->
  steps (selects py key) (set_selected_destination dest ;; @st_rerun unit).
Proof.
  intros Hid Hkey s. simpl. exists dest, id. auto.
Qed.

Lemma steps_result_row_select (key : str) (dest : value) :
  clicked i = Some (lit "Seleccionar", Some key) ->
  steps (selects py key) (result_row py i dest).
Proof.
  intro Hc. unfold result_row.
  apply steps_bind; [steps_step | intro name].
  apply steps_bind; [steps_step | intros _].
  apply steps_bind; [steps_step | intro address].
  apply steps_bind; [repeat steps_step | intros _].
  apply steps_lifted. intros id Hid.
  apply steps_button.
  rewrite (@pressed_of_click i _ _ _ Hc). unfold widget_eqb. simpl fst. simpl snd.
  rewrite str_eqb_refl. simpl andb.
  match goal with |- context [if ?c then _ else _] => destruct c eqn:Hk end.
  - apply str_eqb_eq in Hk. apply steps_select with (id := id); [exact Hid |].
    symmetry. exact Hk.
  - steps_step.
Qed.

(** *** "Calcular Ruta Óptima" when the service fails *)

Lemma calculate_route_fails (a b c d e : value) (s : script) :
  route_call_fails self i ->
  exists payload message,
    calculate_route py self i a b c d e s =
      (Returned VNone,
       mkScript (session_state s)
                (trace s ++
                 [ Shown (st_spinner (lit "🔄 Calculando mejor ruta de transporte..."));
                   Requested (POST (route_url self) payload);
                   Shown (st_error message) ])).
Proof.
  intro Hf. unfold calculate_route, try_except, bind, send, put, emit, bind, raise, ret.
  cbv zeta. simpl.
  match goal with |- context [http i (POST _ ?p)] => specialize (Hf p); exists p end.
  unfold route_url in *.
  destruct (http i _) as [| status body]; simpl.
  - eexists. rewrite <- !app_assoc. reflexivity.
  - replace (status =? 200) with false by (symmetry; now apply Z.eqb_neq).
    simpl. eexists. rewrite <- !app_assoc. reflexivity.
Qed.

Lemma steps_selected_section_fails (location : value) :
  route_call_fails self i ->
  steps R (selected_section py self i location).
Proof.
  intro Hf. unfold selected_section. cbv zeta.
  apply steps_get_session; intro ss.
  destruct (truthy (selected_destination ss)); [| steps_step].
  apply steps_bind; [steps_step | intro name].
  apply steps_bind; [steps_step | intros _].
  apply steps_button.
  destruct (pressed i _ None); [| steps_step].
  do 5 (apply steps_bind; [steps_step | intro]).
  apply steps_returning with (a := VNone).
  - intro s. destruct (calculate_route_fails a a0 a1 a2 a3 s Hf) as (p & m & ->). eauto.
  - simpl. steps_step.
Qed.

End Run.

Section Frame.

Variable py : Runtime.
Variable self : TransportApp.
Variable i : Interaction.

Lemma steps_result_row_frame (dest : value) : steps keeps_route (result_row py i dest).
Proof.
  unfold result_row.
  apply steps_bind; [steps_step | intro name].
  apply steps_bind; [steps_step | intros _].
  apply steps_bind; [steps_step | intro address].
  apply steps_bind; [repeat steps_step | intros _].
  apply steps_bind; [steps_step | intro id].
  apply steps_button.
  destruct (pressed i _ _); [| steps_step].
  intro s. simpl. split; reflexivity.
Qed.

(** a run that presses neither "Calcular Ruta Óptima" nor "Calcular Nueva
    Ruta" leaves [route_data] and [show_results] as they are *)
Lemma run_keeps_route (ss : SessionState) :
  pressed i (lit "🔄 Calcular Ruta Óptima") None = false ->
  pressed i (lit "🔄 Calcular Nueva Ruta") None = false ->
  keeps_route ss (session_state (snd (run py self i ss))).
Proof.
  intros Hc Hn.
  assert (Hs : steps keeps_route (main py self i)).
  { apply steps_main.
    - apply steps_result_row_frame.
    - intro location. now apply steps_selected_section_idle.
    - now apply steps_results_section_idle. }
  specialize (Hs (mkScript ss [])). unfold run. simpl in Hs.
  destruct (fst (main py self i (mkScript ss []))); try exact Hs;
    rewrite Hs; split; reflexivity.
Qed.

End Frame.

(** ** Route requests and the errors that follow them *)

Section Answered.

Variable self : TransportApp.

Lemma answered_quiet (out : list event) :
  Forall (not_route_request self) out ->
  fold_left (answer_step self) out true = true.
Proof.
  induction 1 as [| e out He _ IH]; simpl; auto.
  destruct e as [el | r]; simpl in *.
  - destruct el; exact IH.
  - rewrite He. exact IH.
Qed.

Lemma error_after_request (after : list event) :
  fold_left (answer_step self) after false = true ->
  exists message, In (Shown (st_error message)) after.
Proof.
  induction after as [| e after IH]; simpl; [discriminate |].
  destruct e as [el | r]; simpl.
  - destruct el;
      try (intro H; destruct (IH H) as (m & Hm); exists m; now right).
    intros _. exists body. now left.
  - destruct (is_route_request self r);
      intro H; destruct (IH H) as (m & Hm); exists m; now right.
Qed.

Lemma answered_spec (t : list event) :
  answered self t = true ->
  forall before payload after,
    t = before ++ Requested (POST (route_url self) payload) :: after ->
    exists message, In (Shown (st_error message)) after.
Proof.
  unfold answered. intros H before payload after ->.
  rewrite fold_left_app in H. simpl in H. rewrite str_eqb_refl in H.
  now apply error_after_request.
Qed.

Lemma report_is_not_route (route_result_id : value) :
  is_route_request self (report_request self route_result_id) = false.
Proof.
  unfold is_route_request, report_request, route_url.
  destruct (str_eqb _ _) eqn:H; [| reflexivity].
  apply str_eqb_eq, app_inv_head in H. vm_compute in H. discriminate.
Qed.

Lemma preserves_tame {A} (m : St A) :
  tame (not_route_request self) m -> preserves (all_answered self) m.
Proof.
  intros H s Hs. destruct (H s) as (out & E & F & _).
  rewrite E. simpl. unfold all_answered, answered in *.
  rewrite fold_left_app, Hs. now apply answered_quiet.
Qed.

Lemma preserves_bind (I : list event -> Prop) {A B} (m : St A) (k : A -> St B) :
  preserves I m -> (forall a, preserves I (k a)) -> preserves I (bind m k).
Proof.
  intros Hm Hk s Hs. unfold bind. specialize (Hm s Hs).
  destruct (m s) as [r s1]; simpl in *.
  destruct r as [a | e |]; simpl; auto. now apply Hk.
Qed.

Lemma preserves_try (I : list event -> Prop) {A} (m : St A) (h : exn -> St A) :
  preserves I m -> (forall e, preserves I (h e)) -> preserves I (try_except m h).
Proof.
  intros Hm Hh s Hs. unfold try_except. specialize (Hm s Hs).
  destruct (m s) as [r s1]; simpl in *.
  destruct r as [a | e |]; simpl; auto. now apply Hh.
Qed.

Lemma preserves_for_each (I : list event -> Prop) {A}
      (body : A -> St unit) (items : list A) :
  (forall x, preserves I (body x)) -> preserves I (for_each body items).
Proof.
  intro Hb. induction items as [| x rest IH]; simpl.
  - intros s Hs. exact Hs.
  - apply preserves_bind; auto.
Qed.

Lemma preserves_set_session (I : list event -> Prop) (ss : SessionState) :
  preserves I (set_session ss).
Proof. intros s Hs. exact Hs. Qed.

Lemma preserves_rerun (I : list event -> Prop) {A} : preserves I (@st_rerun A).
Proof. intros s Hs. exact Hs. Qed.

Lemma preserves_calculate_route (py : Runtime) (i : Interaction) (a b c d e : value) :
  route_call_fails self i ->
  preserves (all_answered self) (calculate_route py self i a b c d e).
Proof.
  intros Hf s Hs.
  destruct (calculate_route_fails py a b c d e s Hf) as (payload & message & ->).
  cbn [snd trace]. unfold all_answered, answered in *.
  rewrite fold_left_app, Hs. cbn [fold_left answer_step is_route_request].
  rewrite ?str_eqb_refl. reflexivity.
Qed.

End Answered.

Ltac quiet_leaf :=
  first
    [ apply tame_get_current_location
    | apply tame_search_destinations
    | apply tame_download_report
    | apply tame_display_route_map
    | apply tame_display_transport_companies
    | apply tame_display_route_instructions
    | apply tame_has_route
    | apply tame_button
    | apply tame_ret
    | apply tame_lift
    | apply tame_put
    | apply tame_get_session ];
  try (intros; exact I);
  try (intros; reflexivity);
  try apply report_is_not_route.

Ltac preserves_step :=
  match goal with
  | |- preserves _ (result_row _ _ _) => unfold result_row
  | |- preserves _ (set_show_results _) => unfold set_show_results
  | |- preserves _ (set_route_data _) => unfold set_route_data
  | |- preserves _ (set_selected_destination _) => unfold set_selected_destination
  | |- preserves _ (set_session _) => apply preserves_set_session
  | |- preserves _ st_rerun => apply preserves_rerun
  | |- preserves _ (calculate_route _ _ _ _ _ _ _ _) =>
      apply preserves_calculate_route; assumption
  | |- preserves _ (bind _ _) => apply preserves_bind; [ | intro ]
  | |- preserves _ (for_each _ _) => apply preserves_for_each; intro
  | |- preserves _ (if ?b then _ else _) => destruct b
  | |- preserves _ _ => apply preserves_tame; solve [quiet_leaf]
  end.

Section Session.

Variable py : Runtime.
Variable self : TransportApp.
Variable i : Interaction.

Lemma preserves_main :
  route_call_fails self i ->
  preserves (all_answered self) (main py self i).
Proof.
  intro Hf. unfold main, selected_section, results_section. cbv zeta.
  repeat preserves_step.
Qed.

(** C3.  In a run caused by "Calcular Ruta Óptima" in which the route
    computation fails (no response, or a status other than 200), the
    session is left as it was: [selected_destination], [route_data] and
    [show_results] keep their values; the run is not restarted; and the
    route request, when it is sent, is followed by an error message. *)
Theorem failed_route_keeps_session (ss : SessionState) :
  clicked i = Some btn_calculate ->
  route_call_fails self i ->
  session_state (snd (run py self i ss)) = ss /\
  fst (run py self i ss) <> Rerun /\
  forall before payload after,
    trace (snd (run py self i ss)) =
      before ++ Requested (POST (route_url self) payload) :: after ->
    exists message, In (Shown (st_error message)) after.
Proof.
  intros Hc Hf.
  assert (Hs : steps (fun _ _ => False) (main py self i)).
  { apply steps_main.
    - intro dest. apply steps_result_row_idle. intro key.
      now rewrite (@pressed_of_click i _ _ _ Hc).
    - intro location. now apply steps_selected_section_fails.
    - apply steps_results_section_idle.
      now rewrite (@pressed_of_click i _ _ _ Hc). }
  specialize (Hs (mkScript ss [])). unfold run.
  split; [| split].
  - destruct (fst (main py self i (mkScript ss []))); tauto.
  - intro Hr. now rewrite Hr in Hs.
  - apply answered_spec. now apply preserves_main.
Qed.

(** C8.  "Calcular Nueva Ruta", from whatever session it is taken in,
    leaves the session idle: [show_results] is [False], [route_data] is
    [None] and [selected_destination] is [None]. *)
Theorem new_route_resets_session (ss : SessionState) :
  clicked i = Some btn_new_route ->
  fst (run py self i ss) = Rerun ->
  session_state (snd (run py self i ss)) = mkSession (VBool false) VNone VNone.
Proof.
  intros Hc Hr.
  assert (Hs : steps (fun _ ss' => ss' = initial_session) (main py self i)).
  { apply steps_main.
    - intro dest. apply steps_result_row_idle. intro key.
      now rewrite (@pressed_of_click i _ _ _ Hc).
    - intro location. apply steps_selected_section_idle.
      now rewrite (@pressed_of_click i _ _ _ Hc).
    - apply steps_results_section_reset.
      now rewrite (@pressed_of_click i _ _ _ Hc). }
  specialize (Hs (mkScript ss [])). unfold run in *.
  now rewrite Hr in Hs.
Qed.

(** C10.  "Seleccionar" on a search result, in whatever session (so also
    while a computed route is shown), overwrites [selected_destination]
    with that result and leaves [route_data] and [show_results] as they
    were; and they stay so through every later run that presses neither
    "Calcular Ruta Óptima" nor "Calcular Nueva Ruta": the route computed
    before stays stored and shown. *)
Theorem select_keeps_route (ss : SessionState) (id_text : str) :
  clicked i = Some (btn_select id_text) ->
  fst (run py self i ss) = Rerun ->
  exists dest id,
    getitem dest (lit "id") = Ret id /\
    str_of py id = id_text /\
    session_state (snd (run py self i ss)) =
      mkSession (show_results ss) (route_data ss) dest /\
    forall next : Interaction,
      pressed next (lit "🔄 Calcular Ruta Óptima") None = false ->
      pressed next (lit "🔄 Calcular Nueva Ruta") None = false ->
      keeps_route ss
        (session_state (snd (run py self next (session_state (snd (run py self i ss)))))).
Proof.
  intros Hc Hr.
  assert (Hs : steps (selects py (lit "dest_" ++ id_text)) (main py self i)).
  { apply steps_main.
    - intro dest. now apply steps_result_row_select.
    - intro location. apply steps_selected_section_idle.
      now rewrite (@pressed_of_click i _ _ _ Hc).
    - apply steps_results_section_idle.
      now rewrite (@pressed_of_click i _ _ _ Hc). }
  specialize (Hs (mkScript ss [])). unfold run in *.
  rewrite Hr in Hs. destruct Hs as (dest & id & Hid & Hkey & Hss).
  exists dest, id.
  split; [exact Hid |].
  split; [now apply app_inv_head in Hkey |].
  split; [exact Hss |].
  intros next Hcalc Hnew. simpl in Hss. rewrite Hss.
  exact (@run_keeps_route py self next
           (mkSession (show_results ss) (route_data ss) dest) Hcalc Hnew).
Qed.

End Session.

(** * The statements at work on concrete responses *)


Lemma full_route_drawable : drawable (Demo.response_of Demo.full_route) Demo.full_route.
Proof.
  constructor; try (vm_compute; discriminate).
  eexists; split; reflexivity.
Qed.






Lemma path_layers_iff_coordinates_witness :
  (drawable (Demo.response_of Demo.full_route) Demo.full_route /\
   list_or_absent Demo.full_route "walking_route_coordinates" /\
   list_or_absent Demo.full_route "bus_route_coordinates") /\
  exists ls view,
    display_route_map Demo.runtime (Demo.response_of Demo.full_route) Demo.blank =
      (Returned tt, drawn Demo.blank (mkDeck ls view map_tooltip)) /\
    (exists path, In (walking_layer path) ls) /\
    (exists path, In (bus_layer path) ls).
Proof.
  assert (Hw : list_or_absent Demo.full_route "walking_route_coordinates")
    by (right; eexists; vm_compute; reflexivity).
  assert (Hb : list_or_absent Demo.full_route "bus_route_coordinates")
    by (right; eexists; vm_compute; reflexivity).
  split; [split; [exact full_route_drawable | split; [exact Hw | exact Hb]] |].
  destruct (@path_layers_iff_coordinates Demo.runtime _ _ Demo.blank
              full_route_drawable Hw Hb) as (ls & view & Hrun & Hwalk & Hbus & _).
  exists ls, view. split; [exact Hrun |]. split.
  - apply Hwalk. do 2 eexists. vm_compute. reflexivity.
  - apply Hbus. do 2 eexists. vm_compute. reflexivity.
Defined.

Lemma failed_route_keeps_session_witness :
  let i := Demo.pressing btn_calculate (lit "Mall") Demo.down in
  (clicked i = Some btn_calculate /\ route_call_fails Demo.app i) /\
  session_state (snd (run Demo.runtime Demo.app i Demo.destination_selected)) =
    Demo.destination_selected /\
  In (Requested (POST (route_url Demo.app)
                      (VDict [ (lit "origin_lat", VFloat (S754_finite true 4568182371926896 (-49)));
                               (lit "origin_lng", VFloat (S754_finite true 5561847797616900 (-46)));
                               (lit "destination_name", VStr (lit "Mall Aventura Plaza"));
                               (lit "destination_lat", VInt (-8));
                               (lit "destination_lng", VInt (-79));
                               (lit "timestamp", VStr (lit "2026-01-01T00:00:00"));
                               (lit "user_agent", VStr (lit "streamlit-app")) ])))
     (trace (snd (run Demo.runtime Demo.app i Demo.destination_selected))) /\
  In (Shown (st_error (lit "No se pudo calcular la ruta. Intenta nuevamente.")))
     (trace (snd (run Demo.runtime Demo.app i Demo.destination_selected))).
Proof.
  intro i.
  assert (Hc : clicked i = Some btn_calculate) by reflexivity.
  assert (Hf : route_call_fails Demo.app i) by (intro payload; exact I).
  split; [split; [exact Hc | exact Hf] |].
  split; [exact (proj1 (@failed_route_keeps_session Demo.runtime Demo.app i
                          Demo.destination_selected Hc Hf)) |].
  split; vm_compute; tauto.
Defined.

Lemma download_report_not_available_witness :
  let i := Demo.pressing (lit "📄 Descargar Reporte PDF", None) (lit "")
             (Demo.answers 200
                (VDict [ (lit "success", VBool true);
                         (lit "pdf_base64", VStr (lit "JVBERi0xLjQ="));
                         (lit "filename", VStr (lit "reporte_7.pdf")) ])) in
  fst (download_report Demo.runtime Demo.app i (VInt 7) Demo.blank) =
    Returned (VBytes ["%"; "P"; "D"; "F"; "-"; "1"; "."; "4"]%byte,
              VStr (lit "reporte_7.pdf")).
Proof.
  intro i.
  destruct (@download_report_not_available Demo.runtime Demo.app i (VInt 7) Demo.blank)
    as (_ & _ & _ & _ & Hok).
  rewrite (Hok _ (VStr (lit "JVBERi0xLjQ="))
               ["%"; "P"; "D"; "F"; "-"; "1"; "."; "4"]%byte
               (VStr (lit "reporte_7.pdf")) eq_refl);
    reflexivity.
Defined.

Lemma new_route_resets_session_witness :
  let i := Demo.pressing btn_new_route (lit "") Demo.down in
  (clicked i = Some btn_new_route /\
   fst (run Demo.runtime Demo.app i Demo.route_ready) = Rerun) /\
  session_state (snd (run Demo.runtime Demo.app i Demo.route_ready)) =
    mkSession (VBool false) VNone VNone.
Proof.
  intro i.
  assert (Hc : clicked i = Some btn_new_route) by reflexivity.
  assert (Hr : fst (run Demo.runtime Demo.app i Demo.route_ready) = Rerun)
    by (vm_compute; reflexivity).
  split; [split; [exact Hc | exact Hr] |].
  exact (@new_route_resets_session Demo.runtime Demo.app i Demo.route_ready Hc Hr).
Defined.

(** C9 as stated fails: "ab " has three characters, and neither
    [search_destinations] nor a run of the script with it in the box calls
    the service. *)
Lemma padded_query_not_searched :
  let i := Demo.pressing btn_calculate (lit "ab ") (Demo.answers 200 (VList [Demo.mall])) in
  3 <= len (lit "ab ") /\
  search_destinations Demo.runtime Demo.app i (Some (lit "ab ")) Demo.blank =
    (Returned (VList []), Demo.blank) /\
  requests_of (trace (snd (run Demo.runtime Demo.app i initial_session))) = [].
Proof. repeat split; vm_compute; try reflexivity; discriminate. Qed.

Lemma select_keeps_route_witness :
  let i := Demo.pressing (btn_select (lit "1")) (lit "Mall")
                         (Demo.answers 200 (VList [Demo.mall])) in
  (clicked i = Some (btn_select (lit "1")) /\
   fst (run Demo.runtime Demo.app i Demo.route_ready) = Rerun) /\
  (exists dest id,
     getitem dest (lit "id") = Ret id /\
     str_of Demo.runtime id = lit "1" /\
     session_state (snd (run Demo.runtime Demo.app i Demo.route_ready)) =
       mkSession (VBool true) (Demo.response_of Demo.full_route) dest /\
     forall next : Interaction,
       pressed next (lit "🔄 Calcular Ruta Óptima") None = false ->
       pressed next (lit "🔄 Calcular Nueva Ruta") None = false ->
       keeps_route Demo.route_ready
         (session_state
            (snd (run Demo.runtime Demo.app next
                      (session_state (snd (run Demo.runtime Demo.app i Demo.route_ready))))))) /\
  session_state (snd (run Demo.runtime Demo.app i Demo.route_ready)) =
    mkSession (VBool true) (Demo.response_of Demo.full_route) Demo.mall.
Proof.
  intro i.
  assert (Hc : clicked i = Some (btn_select (lit "1"))) by reflexivity.
  assert (Hr : fst (run Demo.runtime Demo.app i Demo.route_ready) = Rerun)
    by (vm_compute; reflexivity).
  split; [split; [exact Hc | exact Hr] |].
  split; [exact (@select_keeps_route Demo.runtime Demo.app i Demo.route_ready (lit "1") Hc Hr) |].
  vm_compute. reflexivity.
Defined.

(** * Further properties of the methods *)

Lemma shows_error_one (message : str) (before : list event) :
  shows_error (before ++ [Shown (st_error message)]).
Proof. exists message. apply in_or_app. right. now left. Qed.

Lemma no_error_request (r : request) : ~ shows_error [Requested r].
Proof. intros (m & [H | []]). discriminate. Qed.

Section MissingRoute.

Variable py : Runtime.

(** X1.  A response that is empty, or an object without [route], is rendered as
    nothing: both [display_route_map] and [display_route_instructions]
    return at once, leave the page as it is and show no error. *)
Theorem missing_route_renders_nothing (route_data : value) (s : script) :
  truthy route_data = false \/
  (exists d, route_data = VDict d /\ lookup (lit "route") d = None) ->
  display_route_map py route_data s = (Returned tt, s) /\
  display_route_instructions py route_data s = (Returned tt, s).
Proof.
  unfold display_route_map, display_route_instructions, has_route.
  intros [Hf | (d & -> & Hr)].
  - rewrite Hf. split; reflexivity.
  - destruct (truthy (VDict d)); [| split; reflexivity].
    unfold bind, lift, contains. rewrite Hr. split; reflexivity.
Qed.

(** X2.  Every chart that [display_route_map] draws is anchored at the origin of
    the route with zoom 14 and no pitch, carries the fixed tooltip, and has
    at most three layers: the walking path, if any, before the bus path, if
    any, before the points. *)
Theorem chart_anchor_and_layer_order (route_data : value) (s : script) :
  snd (display_route_map py route_data s) = s \/
  exists route points paths,
    getitem route_data (lit "route") = Ret (VDict route) /\
    display_route_map py route_data s =
      (Returned tt,
       drawn s (mkDeck (paths ++ [points_layer points])
                       (mkViewState (field route "origin_lat") (field route "origin_lng") 14 0)
                       map_tooltip)) /\
    (paths = [] \/
     (exists w, paths = [walking_layer w]) \/
     (exists b, paths = [bus_layer b]) \/
     (exists w b, paths = [walking_layer w; bus_layer b])).
Proof.
  destruct (display_route_map_cases py route_data s) as [(route & Hd) | Hs]; [right | now left].
  exists route, (route_points py route), (route_paths route).
  split; [| split].
  - destruct Hd as [(d & -> & Hr) _ _ _ _ _]. unfold getitem. now rewrite Hr.
  - now apply display_route_map_draws.
  - unfold route_paths.
    destruct (truthy (field route "walking_route_coordinates"));
      destruct (truthy (field route "bus_route_coordinates")); simpl; eauto 8.
Qed.

End MissingRoute.

Section Calls.

Variable py : Runtime.
Variable self : TransportApp.
Variable i : Interaction.

(** X3.  [search_destinations] never raises and leaves the session alone.  What
    it returns is the empty list or the parsed body of a 200 answer.  It
    shows an error exactly when the request was sent and the service did not
    answer or answered 200 with a body that is not JSON; a status other
    than 200 gives the empty list without a word. *)
Theorem search_destinations_answers (query : option str) (s : script) :
  exists v out,
    search_destinations py self i query s =
      (Returned v, mkScript (session_state s) (trace s ++ out)) /\
    (v = VList [] \/
     exists q, query = Some q /\ http i (search_request self q) = Response 200 (Some v)) /\
    (shows_error out <->
     exists q, query = Some q /\ 3 <= len (strip q) /\
               (http i (search_request self q) = NoResponse \/
                http i (search_request self q) = Response 200 None)).
Proof.
  unfold search_destinations, try_except, search_request.
  destruct query as [q |].
  2:{ exists (VList []), []. simpl. rewrite script_eta.
      repeat split; auto.
      - intros (m & []).
      - intros (q & H & _). discriminate. }
  destruct (negb (truthy (VStr q)) || (len (strip q) <? 3)) eqn:Hshort.
  - exists (VList []), []. simpl. rewrite script_eta.
    repeat split; auto.
    + intros (m & []).
    + intros (q' & H & Hlen & _). injection H as <-. exfalso.
      apply orb_true_iff in Hshort. destruct Hshort as [Hq | Hq].
      * destruct q; [unfold len in Hlen; simpl in Hlen; lia | discriminate].
      * apply Z.ltb_lt in Hq. lia.
  - apply orb_false_iff in Hshort. destruct Hshort as [_ Hlen]. apply Z.ltb_ge in Hlen.
    unfold bind, send, emit, bind, raise, ret, put, emit, json_of.
    destruct (http i _) as [| status body] eqn:Hh; simpl.
    + eexists (VList []), [_; _]. rewrite <- app_assoc. simpl.
      repeat split; auto.
      * intros _. exists q. auto.
      * intros _. eexists. right. left. reflexivity.
    + destruct (status =? 200) eqn:Hs.
      * apply Z.eqb_eq in Hs. subst status. destruct body as [v |]; simpl.
        -- exists v, [Requested (GET (api_url self ++ lit "/search") [(lit "q", VStr q)])].
           repeat split; eauto.
           ++ intro H. now apply no_error_request in H.
           ++ intros (q' & H & _ & [H' | H']); injection H as <-; congruence.
        -- eexists (VList []), [_; _]. rewrite <- app_assoc. simpl.
           repeat split; auto.
           ++ intros _. exists q. auto.
           ++ intros _. eexists. right. left. reflexivity.
      * apply Z.eqb_neq in Hs.
        exists (VList []), [Requested (GET (api_url self ++ lit "/search") [(lit "q", VStr q)])].
        repeat split; auto.
        -- intro H. now apply no_error_request in H.
        -- intros (q' & H & _ & [H' | H']); injection H as <-; congruence.
Qed.

(** X4.  [calculate_route] never raises and leaves the session alone.  It sends
    one request, with the origin, the destination, the time and the user
    agent "streamlit-app".  On a 200 answer with a JSON body it returns that
    body and shows no error; in every other case (no answer, another status,
    a body that is not JSON) it returns [None] and shows one error. *)
Theorem calculate_route_answers (a b c d e : value) (s : script) :
  exists v out,
    calculate_route py self i a b c d e s =
      (Returned v,
       mkScript (session_state s)
         (trace s ++
          Shown (st_spinner (lit "🔄 Calculando mejor ruta de transporte...")) ::
          Requested (POST (route_url self) (route_payload i a b c d e)) :: out)) /\
    (forall body,
       http i (POST (route_url self) (route_payload i a b c d e)) = Response 200 (Some body) ->
       v = body /\ out = []) /\
    ((forall body,
        http i (POST (route_url self) (route_payload i a b c d e)) <> Response 200 (Some body)) ->
     v = VNone /\ exists message, out = [Shown (st_error message)]).
Proof.
  unfold calculate_route, try_except, bind, send, put, emit, bind, raise, ret, json_of,
    route_url, route_payload.
  cbv zeta. simpl.
  destruct (http i _) as [| status body] eqn:Hh; simpl.
  - eexists VNone, [_]. rewrite <- !app_assoc. simpl.
    split; [reflexivity |]. split; [intros; discriminate |].
    intros _. split; [reflexivity | eexists; reflexivity].
  - destruct (status =? 200) eqn:Hs.
    + apply Z.eqb_eq in Hs. subst status. destruct body as [v |]; simpl.
      * exists v, []. rewrite <- !app_assoc. simpl.
        split; [reflexivity |]. split; [intros body' Hb; injection Hb as <-; auto |].
        intro H. now elim (H v).
      * eexists VNone, [_]. rewrite <- !app_assoc. simpl.
        split; [reflexivity |]. split; [intros; discriminate |].
        intros _. split; [reflexivity | eexists; reflexivity].
    + apply Z.eqb_neq in Hs. simpl.
      eexists VNone, [_]. rewrite <- !app_assoc. simpl.
      split; [reflexivity |].
      split; [intros body' Hb; injection Hb as Hb _; contradiction |].
      intros _. split; [reflexivity | eexists; reflexivity].
Qed.

(** X5.  [download_report] gives something other than [(None, None)] only on a
    200 answer whose body is an object with [success] true, a payload that
    decodes and a filename.  When [success] is true and the payload does
    not decode, or the payload or the filename is missing, and when the
    body is no JSON or no object, it gives [(None, None)] and shows an
    error. *)
Theorem download_report_failures (route_result_id : value) (s : script) :
  exists report out,
    download_report py self i route_result_id s =
      (Returned report,
       mkScript (session_state s)
                (trace s ++ Requested (report_request self route_result_id) :: out)) /\
    (report <> (VNone, VNone) ->
     exists d payload pdf_bytes filename,
       http i (report_request self route_result_id) = Response 200 (Some (VDict d)) /\
       truthy (field d "success") = true /\
       lookup (lit "pdf_base64") d = Some payload /\
       b64decode py payload = Some pdf_bytes /\
       lookup (lit "filename") d = Some filename /\
       report = (VBytes pdf_bytes, filename)) /\
    (forall d,
       http i (report_request self route_result_id) = Response 200 (Some (VDict d)) ->
       truthy (field d "success") = true ->
       lookup (lit "pdf_base64") d = None \/
       (exists payload, lookup (lit "pdf_base64") d = Some payload /\
                        b64decode py payload = None) \/
       lookup (lit "filename") d = None ->
       report = (VNone, VNone) /\ shows_error out) /\
    (http i (report_request self route_result_id) = Response 200 None \/
     (exists v, http i (report_request self route_result_id) = Response 200 (Some v) /\
                not_an_object v) ->
     report = (VNone, VNone) /\ shows_error out).
Proof.
  unfold download_report, report_request, try_except, bind, send, emit, json_of,
    raise, ret, put, emit, lift, get, getitem, field.
  destruct (http i _) as [| status body] eqn:Hh; simpl.
  { eexists (VNone, VNone), [_]. rewrite <- app_assoc. simpl.
    split; [reflexivity |]. split; [congruence |].
    split; [intros; discriminate | intros [H | (v & H & _)]; discriminate]. }
  destruct (status =? 200) eqn:Hs.
  2:{ apply Z.eqb_neq in Hs. exists (VNone, VNone), [].
      split; [reflexivity |]. split; [congruence |].
      split; [intros d H; injection H as H _; contradiction |].
      intros [H | (v & H & _)]; injection H as H _; contradiction. }
  apply Z.eqb_eq in Hs. subst status.
  destruct body as [result |]; simpl.
  2:{ eexists (VNone, VNone), [_]. rewrite <- app_assoc. simpl.
      split; [reflexivity |]. split; [congruence |].
      split; [intros; discriminate |].
      intros _. split; [reflexivity | apply (shows_error_one _ [])]. }
  destruct result as [| | | | | | | d]; simpl;
    try (eexists (VNone, VNone), [_]; rewrite <- app_assoc; simpl;
         split; [reflexivity |]; split; [congruence |];
         split; [intros; discriminate |];
         intros _; split; [reflexivity | apply (shows_error_one _ [])]).
  assert (Hobj : forall (P : Prop),
             Response 200 (Some (VDict d)) = Response 200 None \/
             (exists v, Response 200 (Some (VDict d)) = Response 200 (Some v) /\
                        not_an_object v) -> P).
  { intros P [H | (v & H & Hv)]; [discriminate |]. injection H as <-. destruct Hv. }
  destruct (lookup (lit "success") d) as [success |] eqn:Hsucc; simpl.
  2:{ exists (VNone, VNone), [].
      split; [reflexivity |]. split; [congruence |].
      split; [| apply Hobj].
      intros d' H. injection H as <-. rewrite Hsucc. discriminate. }
  destruct (truthy success) eqn:Ht.
  2:{ exists (VNone, VNone), [].
      split; [reflexivity |]. split; [congruence |].
      split; [| apply Hobj].
      intros d' H. injection H as <-. rewrite Hsucc. congruence. }
  destruct (lookup (lit "pdf_base64") d) as [payload |] eqn:Hp; simpl.
  2:{ eexists (VNone, VNone), [_]. rewrite <- app_assoc. simpl.
      split; [reflexivity |]. split; [congruence |].
      split; [| apply Hobj].
      intros _ _ _ _. split; [reflexivity | apply (shows_error_one _ [])]. }
  destruct (b64decode py payload) as [pdf_bytes |] eqn:Hb; simpl.
  2:{ eexists (VNone, VNone), [_]. rewrite <- app_assoc. simpl.
      split; [reflexivity |]. split; [congruence |].
      split; [| apply Hobj].
      intros _ _ _ _. split; [reflexivity | apply (shows_error_one _ [])]. }
  destruct (lookup (lit "filename") d) as [filename |] eqn:Hf; simpl.
  2:{ eexists (VNone, VNone), [_]. rewrite <- app_assoc. simpl.
      split; [reflexivity |]. split; [congruence |].
      split; [| apply Hobj].
      intros _ _ _ _. split; [reflexivity | apply (shows_error_one _ [])]. }
  exists (VBytes pdf_bytes, filename), [].
  split; [reflexivity |].
  split.
  - intros _. exists d, payload, pdf_bytes, filename. rewrite Hsucc. auto 10.
  - split; [| apply Hobj].
    intros d' H _ [H' | [(p & H1 & H2) | H']]; injection H as <-; congruence.
Qed.

End Calls.

Section Instructions.

Variable py : Runtime.


Local Arguments write_instructions : simpl never.


(** X7.  For a route object with none of the optional fields, what
    [display_route_instructions] shows is made of the defaults alone: a
    walking distance and a confidence of 0, times of 0 minutes, a fare of
    "0.00", and the three fallback steps to the stop "Parada recomendada". *)
Theorem instructions_defaults (d route : list (str * value)) (s : script) :
  lookup (lit "route") d = Some (VDict route) ->
  lacks route [ "walking_distance_km"%string; "walking_time_min"%string;
                "estimated_time_min"%string; "estimated_fare"%string;
                "walking_instructions"%string; "boarding_stop_name"%string;
                "confidence_score"%string ] ->
  display_route_instructions py (VDict d) s =
    (Returned tt,
     mkScript (session_state s)
       (trace s ++
        map Shown
          [ st_markdown (lit "### 📋 Instrucciones de Ruta");
            st_metric (lit "Distancia a caminar")
                      (format_fixed py 2 (S754_zero false) ++ lit " km");
            st_metric (lit "Tiempo caminando") (repr py (VInt 0) ++ lit " min");
            st_metric (lit "Tiempo total estimado") (repr py (VInt 0) ++ lit " min");
            st_metric (lit "Costo aproximado") (lit "S/ " ++ lit "0.00");
            st_markdown (lit "#### 🚶‍♂️ Cómo llegar a la parada:");
            st_write (lit "1. Dirígete hacia la parada: **" ++ lit "Parada recomendada" ++
                      lit "**");
            st_write (lit "2. Distancia a caminar: **" ++
                      format_fixed py 2 (S754_zero false) ++ lit " km**");
            st_write (lit "3. Tiempo estimado caminando: **" ++ repr py (VInt 0) ++
                      lit " minutos**");
            st_markdown (lit "#### 📊 Confianza de la recomendación: **" ++
                         format_fixed py 1 (S754_zero false) ++ lit "%**") ])).
Proof.
  intros Hr Hl.
  unfold lacks in Hl.
  repeat (apply Forall_cons_iff in Hl; destruct Hl as [? Hl]).
  cbv beta in *.
  unfold display_route_instructions, has_route.
  assert (Ht : truthy (VDict d) = true) by (destruct d; [discriminate | reflexivity]).
  rewrite Ht.
  unfold bind, lift, ret, raise, put, emit, getitem, get, contains.
  rewrite Hr. simpl.
  repeat match goal with
         | H : lookup (lit _) route = None |- _ => rewrite H; simpl; clear H
         end.
  rewrite <- !app_assoc. reflexivity.
Qed.

End Instructions.

Section Companies.

Variable py : Runtime.








End Companies.

(** * Further properties of a run *)

Section Moves.

Variable R : SessionState -> SessionState -> Prop.
Hypothesis R_refl : forall a, R a a.
Hypothesis R_trans : forall a b c, R a b -> R b c -> R a c.

Lemma moves_tame {A} (m : St A) : tame (fun _ => True) m -> moves R m.
Proof.
  intros H s. destruct (H s) as (out & E & _ & _). rewrite E. apply R_refl.
Qed.

Lemma moves_steps (R' : SessionState -> SessionState -> Prop) {A} (m : St A) :
  (forall a b, R' a b -> R a b) -> steps R' m -> moves R m.
Proof.
  intros Hsub H s. specialize (H s).
  destruct (fst (m s)); try (rewrite H; apply R_refl). now apply Hsub.
Qed.

Lemma moves_bind {A B} (m : St A) (k : A -> St B) :
  moves R m -> (forall a, moves R (k a)) -> moves R (bind m k).
Proof.
  intros Hm Hk s. unfold bind. specialize (Hm s).
  destruct (m s) as [r s1]; simpl in *.
  destruct r as [a | e |]; simpl; auto.
  eapply R_trans; [exact Hm | apply Hk].
Qed.

Lemma moves_after {A B} (P : A -> Prop) (m : St A) (k : A -> St B) :
  (forall s, exists a s', m s = (Returned a, s') /\
                          session_state s' = session_state s /\ P a) ->
  (forall a, P a -> moves R (k a)) -> moves R (bind m k).
Proof.
  intros Hm Hk s. unfold bind. destruct (Hm s) as (a & s' & -> & Hs & Pa).
  rewrite <- Hs. now apply Hk.
Qed.

Lemma moves_for_each {A} (body : A -> St unit) (items : list A) :
  (forall x, moves R (body x)) -> moves R (for_each body items).
Proof.
  intro Hb. induction items as [| x rest IH]; simpl.
  - apply moves_tame, tame_ret.
  - apply moves_bind; auto.
Qed.

End Moves.

Ltac moves_step :=
  match goal with
  | |- moves _ (for_each _ _) => apply moves_for_each; [assumption | assumption | intro]
  | |- moves _ (bind _ _) => apply moves_bind; [assumption | | intro]
  | |- moves _ (if ?b then _ else _) => destruct b eqn:?
  | |- moves _ _ => apply moves_tame; [assumption | solve [tame_leaf | apply tame_button; intros; exact I]]
  end.

Section MovesOfARun.

Variable py : Runtime.
Variable self : TransportApp.
Variable i : Interaction.
Variable R : SessionState -> SessionState -> Prop.
Hypothesis R_refl : forall a, R a a.
Hypothesis R_trans : forall a b c, R a b -> R b c -> R a c.

Lemma moves_main :
  (forall dest, moves R (result_row py i dest)) ->
  (forall location, moves R (selected_section py self i location)) ->
  moves R (results_section py self i) ->
  moves R (main py self i).
Proof.
  intros Hrow Hsel Hres. unfold main.
  repeat first [ apply Hrow | apply Hsel | apply Hres | moves_step ].
Qed.

End MovesOfARun.

Lemma stays_consistent_refl (a : SessionState) : stays_consistent a a.
Proof. intro H. exact H. Qed.

Lemma stays_consistent_trans (a b c : SessionState) :
  stays_consistent a b -> stays_consistent b c -> stays_consistent a c.
Proof. unfold stays_consistent. auto. Qed.

Lemma keeps_route_consistent (a b : SessionState) : keeps_route a b -> stays_consistent a b.
Proof.
  intros [Hr Hs] H. unfold consistent in *. now rewrite Hr, Hs.
Qed.

Lemma moves_store (route_data : value) :
  truthy route_data = true ->
  moves stays_consistent (set_route_data route_data ;; set_show_results (VBool true)).
Proof. intros Ht s _ _. exact Ht. Qed.

Lemma moves_clear :
  moves stays_consistent
        (set_show_results (VBool false) ;;
         set_route_data VNone ;;
         set_selected_destination VNone ;;
         @st_rerun unit).
Proof. intros s _ H. discriminate H. Qed.

Lemma moves_select (dest : value) :
  moves stays_consistent (set_selected_destination dest ;; @st_rerun unit).
Proof. intros s H. exact H. Qed.

Lemma computed_refl (self : TransportApp) (i : Interaction) (a : SessionState) :
  computed self i a a.
Proof. now left. Qed.

Lemma computed_trans (self : TransportApp) (i : Interaction) (a b c : SessionState) :
  computed self i a b -> computed self i b c -> computed self i a c.
Proof.
  intros [-> | (p & r & Hh & Ht & ->)] [-> | (p' & r' & Hh' & Ht' & ->)].
  - now left.
  - right. eauto.
  - right. eauto.
  - right. exists p', r'. auto.
Qed.

Section RunsOfTheScript.

Variable py : Runtime.
Variable self : TransportApp.
Variable i : Interaction.

Lemma calculate_route_cases (a b c d e : value) (s : script) :
  exists v s',
    calculate_route py self i a b c d e s = (Returned v, s') /\
    session_state s' = session_state s /\
    (v = VNone \/
     exists payload, http i (POST (route_url self) payload) = Response 200 (Some v)).
Proof.
  unfold calculate_route, try_except, bind, send, put, emit, bind, raise, ret, json_of,
    route_url.
  cbv zeta. simpl.
  destruct (http i _) as [| status body] eqn:Hh; simpl; [eauto 6 |].
  destruct (status =? 200) eqn:Hs; simpl; [| eauto 6].
  apply Z.eqb_eq in Hs. subst status.
  destruct body as [v |]; simpl; [| eauto 6].
  exists v. eexists. split; [reflexivity |]. split; [reflexivity |]. right. eauto.
Qed.

Lemma moves_selected_section_consistent (location : value) :
  moves stays_consistent (selected_section py self i location).
Proof.
  pose proof stays_consistent_refl as Hrefl.
  pose proof stays_consistent_trans as Htrans.
  unfold selected_section. cbv zeta.
  repeat first [ apply moves_store; assumption | moves_step ].
Qed.

Lemma moves_result_row_consistent (dest : value) :
  moves stays_consistent (result_row py i dest).
Proof.
  apply moves_steps with (R' := keeps_route).
  - apply stays_consistent_refl.
  - apply keeps_route_consistent.
  - apply steps_result_row_frame.
Qed.

Lemma moves_results_section_consistent :
  moves stays_consistent (results_section py self i).
Proof.
  pose proof stays_consistent_refl as Hrefl.
  pose proof stays_consistent_trans as Htrans.
  unfold results_section. cbv zeta.
  repeat first [ apply moves_clear | moves_step ].
Qed.

(** X9.  Results are shown only with a route stored: if the session is so before
    a run (as it is at its start), it is so after the run, whatever the user
    pressed or typed and whatever the service answered. *)
Theorem run_stays_consistent (ss : SessionState) :
  consistent initial_session /\
  (consistent ss -> consistent (session_state (snd (run py self i ss)))).
Proof.
  split; [intro H; discriminate H |].
  assert (H : moves stays_consistent (main py self i)).
  { apply moves_main.
    - apply stays_consistent_refl.
    - apply stays_consistent_trans.
    - apply moves_result_row_consistent.
    - apply moves_selected_section_consistent.
    - apply moves_results_section_consistent. }
  exact (H (mkScript ss [])).
Qed.

Lemma moves_selected_section_computed (location : value) :
  moves (computed self i) (selected_section py self i location).
Proof.
  pose proof (computed_refl self i) as Hrefl.
  pose proof (@computed_trans self i) as Htrans.
  unfold selected_section. cbv zeta.
  apply moves_bind; [assumption | moves_step | intro ss].
  destruct (truthy (selected_destination ss)); [| moves_step].
  apply moves_bind; [assumption | moves_step | intro name].
  apply moves_bind; [assumption | moves_step | intros _].
  apply moves_bind; [assumption | moves_step | intro pressed].
  destruct pressed; [| moves_step].
  do 5 (apply moves_bind; [assumption | moves_step | intro]).
  eapply moves_after.
  - intro s. apply calculate_route_cases.
  - intros v Hv. simpl in Hv. destruct (truthy v) eqn:Ht; [| moves_step].
    destruct Hv as [-> | (payload & Hh)]; [discriminate Ht |].
    intro s. right. exists payload, v. auto.
Qed.

(** X10.  A run caused by "Calcular Ruta Óptima" either leaves the session as it
    was, or stores in [route_data] the body of a 200 answer to the route
    request, a true value, and sets [show_results] to [True], both together;
    [selected_destination] is never touched. *)
Theorem calculate_stores_the_answer (ss : SessionState) :
  clicked i = Some btn_calculate ->
  session_state (snd (run py self i ss)) = ss \/
  exists payload r,
    http i (POST (route_url self) payload) = Response 200 (Some r) /\
    truthy r = true /\
    session_state (snd (run py self i ss)) =
      mkSession (VBool true) r (selected_destination ss).
Proof.
  intro Hc.
  assert (H : moves (computed self i) (main py self i)).
  { apply moves_main.
    - apply computed_refl.
    - apply computed_trans.
    - intro dest. apply moves_steps with (R' := fun _ _ => False).
      + apply computed_refl.
      + intros a b [].
      + apply steps_result_row_idle. intro key.
        now rewrite (@pressed_of_click i _ _ _ Hc).
    - apply moves_selected_section_computed.
    - apply moves_steps with (R' := fun _ _ => False).
      + apply computed_refl.
      + intros a b [].
      + apply steps_results_section_idle.
        now rewrite (@pressed_of_click i _ _ _ Hc). }
  exact (H (mkScript ss [])).
Qed.

(** X11.  A run in which none of "Seleccionar", "Calcular Ruta Óptima" and
    "Calcular Nueva Ruta" is pressed (typing in the box, the location,
    report and feedback buttons) leaves the session as it was and does not
    restart the script. *)
Theorem other_runs_keep_session (ss : SessionState) :
  (forall key, pressed i (lit "Seleccionar") (Some key) = false) ->
  pressed i (lit "🔄 Calcular Ruta Óptima") None = false ->
  pressed i (lit "🔄 Calcular Nueva Ruta") None = false ->
  session_state (snd (run py self i ss)) = ss /\
  fst (run py self i ss) <> Rerun.
Proof.
  intros Hsel Hcalc Hnew.
  assert (Hs : steps (fun _ _ => False) (main py self i)).
  { apply steps_main.
    - intro dest. now apply steps_result_row_idle.
    - intro location. now apply steps_selected_section_idle.
    - now apply steps_results_section_idle. }
  specialize (Hs (mkScript ss [])). unfold run.
  destruct (fst (main py self i (mkScript ss []))) eqn:Hr; simpl in Hs;
    split; try exact Hs; try discriminate; contradiction.
Qed.

End RunsOfTheScript.

(** ** What a run sends *)

Lemma preserves_forall_tame (E : event -> Prop) {A} (m : St A) :
  tame E m -> preserves (Forall E) m.
Proof.
  intros H s Hs. destruct (H s) as (out & Eq & F & _).
  rewrite Eq. simpl. now apply Forall_app.
Qed.

Lemma preserves_after (I : list event -> Prop) {A B} (a : A) (m : St A) (k : A -> St B) :
  (forall s, I (trace s) -> exists s', m s = (Returned a, s') /\ I (trace s')) ->
  preserves I (k a) -> preserves I (bind m k).
Proof.
  intros Hm Hk s Hs. unfold bind. destruct (Hm s Hs) as (s' & -> & Hs').
  now apply Hk.
Qed.

Lemma preserves_lifted (I : list event -> Prop) {A B} (r : outcome A) (k : A -> St B) :
  (forall a, r = Ret a -> preserves I (k a)) -> preserves I (bind (lift r) k).
Proof.
  intros Hk. destruct r as [a | e].
  - intros s Hs. exact (Hk a eq_refl s Hs).
  - intros s Hs. exact Hs.
Qed.

Ltac page_leaf :=
  first
    [ apply tame_get_current_location
    | apply tame_calculate_route
    | apply tame_search_destinations
    | apply tame_download_report
    | apply tame_display_route_map
    | apply tame_display_transport_companies
    | apply tame_display_route_instructions
    | apply tame_has_route
    | apply tame_button
    | apply tame_ret
    | apply tame_lift
    | apply tame_put
    | apply tame_get_session ];
  try (intros; exact I).

Ltac forall_step :=
  match goal with
  | |- preserves _ (result_row _ _ _) => unfold result_row
  | |- preserves _ (set_show_results _) => unfold set_show_results
  | |- preserves _ (set_route_data _) => unfold set_route_data
  | |- preserves _ (set_selected_destination _) => unfold set_selected_destination
  | |- preserves _ (set_session _) => apply preserves_set_session
  | |- preserves _ st_rerun => apply preserves_rerun
  | |- preserves _ (bind _ _) => apply preserves_bind; [ | intro ]
  | |- preserves _ (for_each _ _) => apply preserves_for_each; intro
  | |- preserves _ (if ?b then _ else _) => destruct b eqn:?
  | |- preserves _ _ => apply preserves_forall_tame; solve [page_leaf]
  end.

Section Sent.

Variable py : Runtime.
Variable self : TransportApp.
Variable i : Interaction.

Lemma search_destinations_short (q : str) (s : script) :
  len (strip q) < 3 ->
  search_destinations py self i (Some q) s = (Returned (VList []), s).
Proof.
  intros Hq. unfold search_destinations, try_except.
  replace (len (strip q) <? 3) with true by (symmetry; now apply Z.ltb_lt).
  now rewrite orb_true_r.
Qed.

(** X12.  While the text of the destination box has fewer than 3 characters once
    stripped, a run sends no search: there is no GET request in its trace,
    whatever is pressed. *)
Theorem short_input_sends_no_search (ss : SessionState) :
  len (strip (destination_input i)) < 3 ->
  Forall no_search (trace (snd (run py self i ss))).
Proof.
  intro Hshort.
  assert (H : preserves (Forall no_search) (main py self i)).
  { unfold main, selected_section, results_section. cbv zeta.
    repeat first
      [ match goal with
        | |- preserves _ (search_destinations _ _ _ _) =>
            intros s Hs; unfold preserves;
            rewrite (@search_destinations_short (destination_input i) s Hshort); exact Hs
        end
      | forall_step ]. }
  apply (H (mkScript ss [])). constructor.
Qed.

Lemma get_current_location_default (s : script) :
  exists out,
    get_current_location py self i s =
      (Returned (default_location self), mkScript (session_state s) (trace s ++ out)) /\
    Forall on_page out.
Proof.
  unfold get_current_location, try_except, bind, button, put, emit, bind, ret.
  simpl.
  destruct (match clicked i with Some w => _ | None => false end); simpl;
    eexists; rewrite <- ?app_assoc; simpl; (split; [reflexivity | repeat constructor]).
Qed.

Lemma tame_calculate_route_payload (E : event -> Prop) (a b c d e : value) :
  (forall el, E (Shown el)) ->
  E (Requested (POST (route_url self) (route_payload i a b c d e))) ->
  tame E (calculate_route py self i a b c d e).
Proof.
  intros Hshown Hq. unfold calculate_route. tame_tac; exact Hq.
Qed.

Lemma report_url_differs : api_url self ++ lit "/generate-report" <> route_url self.
Proof.
  unfold route_url. intro H. apply app_inv_head in H. vm_compute in H. discriminate.
Qed.

(** X13.  The origin of every route request that a run sends is the default
    location of the application, also in the run that "Usar mi ubicación
    real" causes; the request carries the time of the run and the user
    agent "streamlit-app". *)
Theorem route_requests_start_at_default_location (ss : SessionState) (payload : value) :
  In (Requested (POST (route_url self) payload)) (trace (snd (run py self i ss))) ->
  getitem payload (lit "origin_lat") = getitem (default_location self) (lit "latitude") /\
  getitem payload (lit "origin_lng") = getitem (default_location self) (lit "longitude") /\
  getitem payload (lit "timestamp") = Ret (VStr (now_isoformat i)) /\
  getitem payload (lit "user_agent") = Ret (VStr (lit "streamlit-app")).
Proof.
  intro Hin.
  assert (H : preserves (Forall (from_default_location self i)) (main py self i)).
  { unfold main.
    apply preserves_after with (a := default_location self).
    { intros s Hs. destruct (get_current_location_default s) as (out & E & F).
      eexists. split; [exact E |]. simpl. apply Forall_app. split; [exact Hs |].
      eapply Forall_impl; [| exact F]. intros [el | r] Hp; [exact I | destruct Hp]. }
    destruct (truthy (default_location self)); [| forall_step].
    do 11 (apply preserves_bind; [repeat forall_step | intro]).
    apply preserves_bind; [| intros _].
    - repeat forall_step.
    - apply preserves_bind; [| intros _].
      + unfold selected_section. cbv zeta.
        apply preserves_bind; [forall_step | intro session].
        destruct (truthy (selected_destination session)); [| forall_step].
        do 3 (apply preserves_bind; [forall_step | intro]).
        match goal with |- preserves _ (if ?b then _ else _) => destruct b end;
          [| forall_step].
        apply preserves_lifted. intros origin_lat Hlat.
        apply preserves_lifted. intros origin_lng Hlng.
        do 3 (apply preserves_bind; [forall_step | intro]).
        apply preserves_bind; [| intro; repeat forall_step].
        apply preserves_forall_tame, tame_calculate_route_payload; [intros; exact I |].
        intros _. rewrite Hlat, Hlng. repeat split; reflexivity.
      + unfold results_section. cbv zeta.
        repeat first
          [ match goal with
            | |- preserves _ (download_report _ _ _ _) =>
                apply preserves_forall_tame, tame_download_report;
                [ intros; exact I
                | intro Hurl; exfalso; now apply report_url_differs in Hurl ]
            end
          | forall_step ]. }
  specialize (H (mkScript ss []) (Forall_nil _)).
  rewrite Forall_forall in H. exact (H _ Hin eq_refl).
Qed.

End Sent.

(** * The further statements at work *)

Lemma missing_route_renders_nothing_witness :
  (truthy (VDict Samples.refusal) = false \/
   exists d, VDict Samples.refusal = VDict d /\ lookup (lit "route") d = None) /\
  display_route_map Demo.runtime (VDict Samples.refusal) Demo.blank =
    (Returned tt, Demo.blank) /\
  display_route_instructions Demo.runtime (VDict Samples.refusal) Demo.blank =
    (Returned tt, Demo.blank).
Proof.
  assert (H : truthy (VDict Samples.refusal) = false \/
              exists d, VDict Samples.refusal = VDict d /\ lookup (lit "route") d = None)
    by (right; eexists; split; reflexivity).
  split; [exact H |].
  exact (@missing_route_renders_nothing Demo.runtime _ Demo.blank H).
Defined.


Lemma instructions_defaults_witness :
  (lookup (lit "route") (Samples.items_of Demo.short_route) = Some (VDict Demo.short_route) /\
   lacks Demo.short_route
         [ "walking_distance_km"%string; "walking_time_min"%string;
           "estimated_time_min"%string; "estimated_fare"%string;
           "walking_instructions"%string; "boarding_stop_name"%string;
           "confidence_score"%string ]) /\
  exists out,
    display_route_instructions Demo.runtime (VDict (Samples.items_of Demo.short_route))
                               Demo.blank =
      (Returned tt, mkScript (session_state Demo.blank) (trace Demo.blank ++ out)) /\
    List.length out = 10%nat.
Proof.
  assert (Hr : lookup (lit "route") (Samples.items_of Demo.short_route) =
               Some (VDict Demo.short_route)) by reflexivity.
  assert (Hl : lacks Demo.short_route
                 [ "walking_distance_km"%string; "walking_time_min"%string;
                   "estimated_time_min"%string; "estimated_fare"%string;
                   "walking_instructions"%string; "boarding_stop_name"%string;
                   "confidence_score"%string ])
    by (repeat constructor).
  split; [split; [exact Hr | exact Hl] |].
  eexists. split.
  - exact (@instructions_defaults Demo.runtime _ _ Demo.blank Hr Hl).
  - reflexivity.
Defined.

Lemma calculate_stores_the_answer_witness :
  let i := Demo.pressing btn_calculate (lit "")
             (Demo.answers 200 (Demo.response_of Demo.full_route)) in
  clicked i = Some btn_calculate /\
  (session_state (snd (run Demo.runtime Demo.app i Demo.destination_selected)) =
     Demo.destination_selected \/
   exists payload r,
     http i (POST (route_url Demo.app) payload) = Response 200 (Some r) /\
     truthy r = true /\
     session_state (snd (run Demo.runtime Demo.app i Demo.destination_selected)) =
       mkSession (VBool true) r (selected_destination Demo.destination_selected)) /\
  session_state (snd (run Demo.runtime Demo.app i Demo.destination_selected)) =
    mkSession (VBool true) (Demo.response_of Demo.full_route) Demo.mall.
Proof.
  intro i.
  assert (Hc : clicked i = Some btn_calculate) by reflexivity.
  split; [exact Hc |].
  split; [exact (@calculate_stores_the_answer Demo.runtime Demo.app i
                   Demo.destination_selected Hc) |].
  vm_compute. reflexivity.
Defined.

Lemma other_runs_keep_session_witness :
  ((forall key, pressed Samples.typing (lit "Seleccionar") (Some key) = false) /\
   pressed Samples.typing (lit "🔄 Calcular Ruta Óptima") None = false /\
   pressed Samples.typing (lit "🔄 Calcular Nueva Ruta") None = false) /\
  session_state (snd (run Demo.runtime Demo.app Samples.typing Demo.route_ready)) =
    Demo.route_ready /\
  fst (run Demo.runtime Demo.app Samples.typing Demo.route_ready) <> Rerun.
Proof.
  assert (Hs : forall key, pressed Samples.typing (lit "Seleccionar") (Some key) = false)
    by (intro key; reflexivity).
  assert (Hc : pressed Samples.typing (lit "🔄 Calcular Ruta Óptima") None = false)
    by reflexivity.
  assert (Hn : pressed Samples.typing (lit "🔄 Calcular Nueva Ruta") None = false)
    by reflexivity.
  split; [split; [exact Hs | split; [exact Hc | exact Hn]] |].
  exact (@other_runs_keep_session Demo.runtime Demo.app Samples.typing Demo.route_ready
           Hs Hc Hn).
Defined.

Lemma short_input_sends_no_search_witness :
  let i := Demo.pressing btn_calculate (lit "ab ") (Demo.answers 200 (VList [Demo.mall])) in
  len (strip (destination_input i)) < 3 /\
  Forall no_search (trace (snd (run Demo.runtime Demo.app i Demo.destination_selected))).
Proof.
  intro i.
  assert (Hs : len (strip (destination_input i)) < 3) by (vm_compute; reflexivity).
  split; [exact Hs |].
  exact (@short_input_sends_no_search Demo.runtime Demo.app i Demo.destination_selected Hs).
Defined.

Lemma route_requests_start_at_default_location_witness :
  let i := Demo.pressing btn_calculate (lit "Mall") Demo.down in
  In (Requested (POST (route_url Demo.app) Samples.mall_payload))
     (trace (snd (run Demo.runtime Demo.app i Demo.destination_selected))) /\
  getitem Samples.mall_payload (lit "origin_lat") =
    getitem (default_location Demo.app) (lit "latitude").
Proof.
  intro i.
  assert (Hin : In (Requested (POST (route_url Demo.app) Samples.mall_payload))
                   (trace (snd (run Demo.runtime Demo.app i Demo.destination_selected))))
    by (vm_compute; tauto).
  split; [exact Hin |].
  exact (proj1 (@route_requests_start_at_default_location Demo.runtime Demo.app i
                  Demo.destination_selected Samples.mall_payload Hin)).
Defined.
